(** * Combined quality filter of the code-dataset preprocessing script

    A shallow embedding of [preprocessing/filtering.py]: the per-record
    evaluator [combined_filter_map], the corpus stage
    [filter_dataset_with_stats], the persistence step [stream_to_disk] and
    the script body, with the properties of the specification stated on
    them.

    Python values are dynamically typed, so records are dictionaries from
    field names to values and every operation that Python can refuse
    (a missing key, an ordering between unrelated types, a division by
    zero) returns an exception instead of a value.  Floats are binary64
    numbers, computed with the IEEE 754 specification of the standard
    library. *)

From Stdlib Require Import ZArith NArith List Bool Ascii Lia.
From Stdlib Require Import SpecFloat.
From stdpp Require Import gmap strings list fin_maps.

Local Open Scope string_scope.
Local Open Scope Z_scope.

(* ===================================================================== *)
(** * Python values, exceptions and arithmetic *)
(* ===================================================================== *)

Module Py.

(** The exceptions the script can meet.  [OtherError] stands for whatever
    an external collaborator raises that the script has no name for. *)
Inductive exn :=
| KeyError (k : string)
| TypeError
| AttributeError
| ZeroDivisionError
| OverflowError
| FileExistsError
| OtherError (name : string).

(** A computation either returns or raises. *)
Inductive result (A : Type) :=
| Ok (a : A)
| Raise (e : exn).
Arguments Ok {A} a.
Arguments Raise {A} e.

#[global] Instance result_ret : MRet result := fun A a => Ok a.
#[global] Instance result_bind : MBind result := fun A B f m =>
  match m with
  | Ok a => f a
  | Raise e => Raise e
  end.

(** A [str] is a sequence of Unicode code points: [len] counts code
    points, not bytes. *)
Definition pystr := list N.

(** The code points of an ASCII literal. *)
Fixpoint str_of (s : string) : pystr :=
  match s with
  | EmptyString => []
  | String a s' => N_of_ascii a :: str_of s'
  end.

(** Number of bytes of the UTF-8 encoding of one code point. *)
Definition utf8_width (c : N) : nat :=
  if (c <? 128)%N then 1%nat
  else if (c <? 2048)%N then 2%nat
  else if (c <? 65536)%N then 3%nat
  else 4%nat.

(** Byte length of the UTF-8 encoding of a string. *)
Definition utf8_len (s : pystr) : nat :=
  foldr (fun c n => (utf8_width c + n)%nat) 0%nat s.

(** [str.lower] restricted to the ASCII letters, for concrete runs. *)
Definition ascii_lower (s : pystr) : pystr :=
  (fun c => if ((65 <=? c) && (c <=? 90))%N then (c + 32)%N else c) <$> s.

(** The values that occur in a record of the corpus and in the
    arguments: [None], integers of any size, floats and strings. *)
Inductive value :=
| VNone
| VInt (z : Z)
| VFloat (f : spec_float)
| VStr (s : pystr).

(** ** Binary64 *)

Definition prec : Z := 53.
Definition emax : Z := 1024.

(** [float(z)]: round to nearest even, [OverflowError] when [z] is too
    large for a float. *)
Definition float_of_Z (z : Z) : result spec_float :=
  match binary_normalize prec emax z 0 false with
  | S754_infinity _ => Raise OverflowError
  | f => Ok f
  end.

(** The literal [1e9], that is [8388608000000000 * 2^-23]. *)
Definition f_1e9 : spec_float := S754_finite false 8388608000000000 (-23).

Definition is_zero (f : spec_float) : bool :=
  match f with
  | S754_zero _ => true
  | _ => false
  end.

(** ** Ordering

    Numbers are compared by their exact value, also between an [int] and
    a [float]; [xnum] is that value: not-a-number, an infinity, or the
    dyadic number [m * 2^e]. *)
Inductive xnum :=
| XNaN
| XNegInf
| XPosInf
| XFin (m e : Z).

Definition xnum_of_float (f : spec_float) : xnum :=
  match f with
  | S754_zero _ => XFin 0 0
  | S754_infinity s => if s then XNegInf else XPosInf
  | S754_nan => XNaN
  | S754_finite s m e => XFin (cond_Zopp s (Zpos m)) e
  end.

Definition xcompare (a b : xnum) : option comparison :=
  match a, b with
  | XNaN, _ | _, XNaN => None
  | XNegInf, XNegInf => Some Eq
  | XNegInf, _ => Some Lt
  | _, XNegInf => Some Gt
  | XPosInf, XPosInf => Some Eq
  | XPosInf, _ => Some Gt
  | _, XPosInf => Some Lt
  | XFin m1 e1, XFin m2 e2 =>
      let e := Z.min e1 e2 in
      Some (Z.compare (m1 * 2 ^ (e1 - e)) (m2 * 2 ^ (e2 - e)))
  end.

Definition as_num (v : value) : option xnum :=
  match v with
  | VInt z => Some (XFin z 0)
  | VFloat f => Some (xnum_of_float f)
  | _ => None
  end.

(** Strings are ordered lexicographically by code point. *)
Fixpoint str_compare (s t : pystr) : comparison :=
  match s, t with
  | [], [] => Eq
  | [], _ :: _ => Lt
  | _ :: _, [] => Gt
  | a :: s', b :: t' =>
      match N.compare a b with
      | Eq => str_compare s' t'
      | c => c
      end
  end.

(** The outcome of ordering two values: [None] when one of them is a
    NaN (every ordering test is then false), [TypeError] when the types
    have no ordering. *)
Definition py_compare (a b : value) : result (option comparison) :=
  match as_num a, as_num b with
  | Some x, Some y => Ok (xcompare x y)
  | _, _ =>
      match a, b with
      | VStr s, VStr t => Ok (Some (str_compare s t))
      | _, _ => Raise TypeError
      end
  end.

(** [a > b], [a < b], [a <= b], [a >= b] *)
Definition py_gt (a b : value) : result bool :=
  c ← py_compare a b;
  Ok (match c with Some Gt => true | _ => false end).

Definition py_lt (a b : value) : result bool :=
  c ← py_compare a b;
  Ok (match c with Some Lt => true | _ => false end).

Definition py_le (a b : value) : result bool :=
  c ← py_compare a b;
  Ok (match c with Some Lt | Some Eq => true | _ => false end).

Definition py_ge (a b : value) : result bool :=
  c ← py_compare a b;
  Ok (match c with Some Gt | Some Eq => true | _ => false end).

(** [a == b] never raises: values of unrelated types are different. *)
Definition py_eq (a b : value) : bool :=
  match a, b with
  | VNone, VNone => true
  | _, _ =>
      match py_compare a b with
      | Ok (Some Eq) => true
      | _ => false
      end
  end.

(** ** Arithmetic *)

(** The float a number is converted to when the other operand is a
    float. *)
Definition to_float (v : value) : result spec_float :=
  match v with
  | VInt z => float_of_Z z
  | VFloat f => Ok f
  | _ => Raise TypeError
  end.

(** [a + b] on numbers (the only use is [sum], whose accumulator starts
    at the integer [0]). *)
Definition py_add (a b : value) : result value :=
  match a, b with
  | VInt x, VInt y => Ok (VInt (x + y))
  | _, _ =>
      x ← to_float a; y ← to_float b;
      Ok (VFloat (SFadd prec emax x y))
  end.

(** [a - b] *)
Definition py_sub (a b : value) : result value :=
  match a, b with
  | VInt x, VInt y => Ok (VInt (x - y))
  | _, _ =>
      x ← to_float a; y ← to_float b;
      Ok (VFloat (SFsub prec emax x y))
  end.

(** [a * b] on numbers *)
Definition py_mul (a b : value) : result value :=
  match a, b with
  | VInt x, VInt y => Ok (VInt (x * y))
  | _, _ =>
      x ← to_float a; y ← to_float b;
      Ok (VFloat (SFmul prec emax x y))
  end.

(** The integer [z] as an unrounded dyadic number, for the exact
    quotient of two integers. *)
Definition raw_of_Z (z : Z) : spec_float :=
  match z with
  | Z0 => S754_zero false
  | Zpos p => S754_finite false p 0
  | Zneg p => S754_finite true p 0
  end.

(** [a / b], true division.  Between two integers the quotient is
    rounded once, from its exact value; a zero divisor raises. *)
Definition py_truediv (a b : value) : result value :=
  match a, b with
  | VInt x, VInt y =>
      if y =? 0 then Raise ZeroDivisionError
      else
        match SFdiv prec emax (raw_of_Z x) (raw_of_Z y) with
        | S754_infinity _ => Raise OverflowError
        | S754_zero _ => Ok (VFloat (S754_zero (xorb (x <? 0) (y <? 0))))
        | q => Ok (VFloat q)
        end
  | _, _ =>
      x ← to_float a; y ← to_float b;
      if is_zero y then Raise ZeroDivisionError
      else Ok (VFloat (SFdiv prec emax x y))
  end.

(** [sum(l)]: the accumulator starts at [0] and adds from the left. *)
Definition py_sum (l : list value) : result value :=
  foldl (fun acc x => a ← acc; py_add a x) (Ok (VInt 0)) l.

(** [len(v)] *)
Definition py_len (v : value) : result value :=
  match v with
  | VStr s => Ok (VInt (Z.of_nat (length s)))
  | _ => Raise TypeError
  end.

(** [v.lower()], given the case mapping of [str] *)
Definition py_lower (lower : pystr -> pystr) (v : value) : result pystr :=
  match v with
  | VStr s => Ok (lower s)
  | _ => Raise AttributeError
  end.

(** [d[k]] *)
Definition getitem (d : gmap string value) (k : string) : result value :=
  match d !! k with
  | Some v => Ok v
  | None => Raise (KeyError k)
  end.

End Py.
Import Py.

(* ===================================================================== *)
(** * The corpus and the external collaborators *)
(* ===================================================================== *)

(** A record of the corpus is a dictionary from field names to values. *)
Abbreviation pydict := (gmap string value).

(** A [datasets.Dataset]: its column names and its rows.  The library
    is not part of the repository: its operations are modelled by what
    the script relies on, and the rows are kept as the dictionaries the
    mapped functions return. *)
Record Dataset := mkDataset {
  column_names : gset string;
  rows : list pydict
}.

(** [FilteringArguments], of [arguments.py]: the fields the script
    reads.  The parsed values are not typed here: what the script does
    with a value of the wrong type is part of the model. *)
Record FilteringArguments := mkArgs {
  line_max : value;
  line_mean : value;
  alpha_frac : value;
  threshold_stars : value;
  min_threshold_comments : value;
  max_threshold_comments : value;
  num_workers : value;
  dataset_name : value;
  split : value;
  subset : value;
  hub_username : value;
  remote_repo : value;
  out_path : value
}.

(** What the script imports and does not define: the case mapping of
    [str.lower], the comment-density oracle of [utils.text_extraction],
    the sharded writer of [utils.manual_sharding] with the storage it
    writes to, and the loader of [datasets].  The oracle, the writer and
    the loader may raise; the writer also returns the storage as it left
    it. *)
Class Collaborators := {
  str_lower : pystr -> pystr;
  get_nl_ratio : value -> pystr -> result value;
  storage : Type;
  save_manual_shards :
    Dataset -> value -> value -> value -> value -> storage ->
    result unit * storage;
  load_dataset : value -> value -> value -> value -> result Dataset
}.

(** ** Operations of [Dataset] *)

(** [len(dataset)] *)
Definition ds_len (ds : Dataset) : Z := Z.of_nat (length (rows ds)).

(** [dataset[c]]: the values of column [c], [None] where a row has no
    value; [KeyError] for an unknown column. *)
Definition ds_column (ds : Dataset) (c : string) : result (list value) :=
  if decide (c ∈ column_names ds)
  then Ok ((fun r : pydict => default VNone (r !! c)) <$> rows ds)
  else Raise (KeyError c).

(** The rows of [dataset.map(f)]: [f] runs on every row in turn and what
    it returns updates the row; the first exception ends the pass. *)
Fixpoint map_rows (f : pydict -> result pydict) (l : list pydict)
  : result (list pydict) :=
  match l with
  | [] => Ok []
  | r :: l' =>
      o ← f r;
      l'' ← map_rows f l';
      Ok ((o ∪ r) :: l'')
  end.

(** The rows updated before the first exception. *)
Fixpoint updated_before (f : pydict -> result pydict) (l : list pydict)
  : list pydict :=
  match l with
  | [] => []
  | r :: l' =>
      match f r with
      | Ok o => (o ∪ r) :: updated_before f l'
      | Raise _ => []
      end
  end.

(** The updated rows are written as one batch, by one process: the
    corpus is no longer than a batch of the writer.  A row of a corpus
    holds every column; what differs from row to row is what the
    function added.  The writer takes the columns of the batch from its
    first row: a field added to the first row is read in every row, and
    a field added to another row only is not read. *)

(** [k] is a field that [x] has and the row [r] it comes from has not. *)
Definition is_added (r x : pydict) (k : string) : bool :=
  match r !! k, x !! k with
  | None, Some _ => true
  | _, _ => false
  end.

(** Some row of the batch has no field [k]. *)
Definition lacks (k : string) (xs : list pydict) : bool :=
  existsb (fun x : pydict =>
             match x !! k with
             | None => true
             | Some _ => false
             end) xs.

(** What is written of the updated row [x] of [r]: its own fields, and
    the added fields that the first updated row has. *)
Definition kept_fields (first r x : pydict) : pydict :=
  filter (fun kv : string * value => kv.1 ∈ dom r ∨ kv.1 ∈ dom first) x.

(** The batch as written, from the rows and the updated rows. *)
Definition written (rs xs : list pydict) : list pydict :=
  match xs with
  | [] => []
  | first :: _ => zip_with (kept_fields first) rs xs
  end.

(** Writing the batch: the fields added to the first row are read in
    the order in which the function wrote them ([order], then any
    other), column by column, and the first that a row lacks raises
    [KeyError]. *)
Definition write_batch (order : list string) (rs xs : list pydict)
  : result (list pydict) :=
  match rs, xs with
  | r0 :: _, x0 :: _ =>
      match List.find (fun k => is_added r0 x0 k && lacks k xs)
              (order ++ elements (dom x0)) with
      | Some k => Raise (KeyError k)
      | None => Ok (written rs xs)
      end
  | _, _ => Ok []
  end.

(** [dataset.map(f)], where [f] writes its fields in the order [order]:
    the columns that are written are added to the column names.  When
    [f] raises, the library closes the writer before it raises again,
    and the writer writes the rows updated so far: a [KeyError] of the
    writer then takes the place of the exception of [f]. *)
Definition ds_map (order : list string) (f : pydict -> result pydict)
  (ds : Dataset) : result Dataset :=
  match map_rows f (rows ds) with
  | Ok l =>
      l ← write_batch order (rows ds) l;
      Ok (mkDataset (column_names ds ∪ ⋃ (dom <$> l)) l)
  | Raise e =>
      let done := updated_before f (rows ds) in
      _ ← write_batch order (take (length done) (rows ds)) done;
      Raise e
  end.

(** The rows of [dataset.filter(p)], in their order. *)
Fixpoint filter_rows (p : pydict -> result bool) (l : list pydict)
  : result (list pydict) :=
  match l with
  | [] => Ok []
  | r :: l' =>
      b ← p r;
      l'' ← filter_rows p l';
      Ok (if b : bool then r :: l'' else l'')
  end.

(** [dataset.filter(p)] *)
Definition ds_filter (p : pydict -> result bool) (ds : Dataset)
  : result Dataset :=
  l ← filter_rows p (rows ds);
  Ok (mkDataset (column_names ds) l).

(* ===================================================================== *)
(** * The evaluator: [combined_filter_map] *)
(* ===================================================================== *)

(** The local state of the evaluator between two gates: [is_valid] and
    [stats]. *)
Definition gate_state : Type := bool * pydict.

(** Basic filters (the [if]/[elif]/[elif] chain): a later condition is
    only evaluated when the earlier ones are false. *)
Definition basic_filters (example : pydict) (args : FilteringArguments)
  (st : gate_state) : result gate_state :=
  let is_valid := st.1 in
  let stats := st.2 in
  max_line_length ← getitem example "max_line_length";
  c1 ← py_gt max_line_length (line_max args);
  if c1 : bool then Ok (false, <["basic_rejected_max_line" := VInt 1]> stats)
  else
    avg_line_length ← getitem example "avg_line_length";
    c2 ← py_gt avg_line_length (line_mean args);
    if c2 : bool then Ok (false, <["basic_rejected_avg_line" := VInt 1]> stats)
    else
      alphanum_fraction ← getitem example "alphanum_fraction";
      c3 ← py_lt alphanum_fraction (alpha_frac args);
      if c3 : bool then Ok (false, <["basic_rejected_alphanum" := VInt 1]> stats)
      else Ok (is_valid, stats).

(** The stars value the gate works on:
    [example.get("max_stars_count", 0)], with [None] turned into [0]. *)
Definition normalized_stars (example : pydict) : value :=
  match default (VInt 0) (example !! "max_stars_count") with
  | VNone => VInt 0
  | stars => stars
  end.

(** Stars filter *)
Definition stars_filter (example : pydict) (args : FilteringArguments)
  (st : gate_state) : result gate_state :=
  let is_valid := st.1 in
  let stats := st.2 in
  let stars := normalized_stars example in
  let stats := <["stars" := stars]> stats in
  c ← py_le stars (threshold_stars args);
  if c : bool then Ok (false, <["stars_rejected" := VInt 1]> stats)
  else Ok (is_valid, stats).

(** Comments filter: the oracle is called on the content and the
    lower-cased language; the second test of the [or] is only evaluated
    when the first is false. *)
Definition comments_filter `{Collaborators} (example : pydict)
  (args : FilteringArguments) (st : gate_state) : result gate_state :=
  let is_valid := st.1 in
  let stats := st.2 in
  content ← getitem example "content";
  lang ← getitem example "lang";
  lang ← py_lower str_lower lang;
  nl_ratio ← get_nl_ratio content lang;
  let stats := <["nl_ratio" := nl_ratio]> stats in
  c1 ← py_le nl_ratio (min_threshold_comments args);
  c ← (if c1 : bool then Ok true
       else py_ge nl_ratio (max_threshold_comments args));
  if c : bool then Ok (false, <["comments_rejected" := VInt 1]> stats)
  else Ok (is_valid, stats).

(** The diagnostics of a record: the three gates in their order, from a
    valid record and empty [stats], then the decision. *)
Definition combined_filter_stats `{Collaborators} (example : pydict)
  (args : FilteringArguments) : result pydict :=
  st ← basic_filters example args (true, ∅);
  st ← stars_filter example args st;
  st ← comments_filter example args st;
  let is_valid := st.1 in
  let stats := st.2 in
  Ok (<["accepted" := VInt (if is_valid : bool then 1 else 0)]> stats).

(** The fields of [stats], in the order in which the evaluator writes
    them. *)
Definition stats_order : list string :=
  ["basic_rejected_max_line"; "basic_rejected_avg_line";
   "basic_rejected_alphanum"; "stars"; "stars_rejected"; "nl_ratio";
   "comments_rejected"; "accepted"].

(** [combined_filter_map(example, args)] returns
    [{**example, **stats}]: where both have a key, [stats] wins. *)
Definition combined_filter_map `{Collaborators} (example : pydict)
  (args : FilteringArguments) : result pydict :=
  stats ← combined_filter_stats example args;
  Ok (stats ∪ example).

(* ===================================================================== *)
(** * Effects: the log and the storage *)
(* ===================================================================== *)

Inductive level := INFO | WARNING.

(** A line of the log: its level, the text of the message with [{}] in
    the place of each interpolated value, and these values.  The
    readings of the clock are not modelled, so an elapsed time is a
    placeholder without a value. *)
Record log_record := mkLog {
  log_level : level;
  log_template : string;
  log_fields : list value
}.

(** What the script acts on: the lines logged so far and the storage of
    the writer. *)
Record world `{Collaborators} := mkWorld {
  w_log : list log_record;
  w_store : storage
}.

(** A statement of the script: it returns or raises, and leaves a
    world. *)
Definition M `{Collaborators} (A : Type) : Type :=
  world -> result A * world.

#[global] Instance M_ret `{Collaborators} : MRet M :=
  fun A a w => (Ok a, w).
#[global] Instance M_bind `{Collaborators} : MBind M :=
  fun A B f m w =>
    match m w with
    | (Ok a, w') => f a w'
    | (Raise e, w') => (Raise e, w')
    end.

(** A computation without effect, as a statement. *)
Definition lift `{Collaborators} {A : Type} (r : result A) : M A :=
  fun w => (r, w).

(** A line is appended to the log. *)
Definition log_at `{Collaborators} (l : level) (template : string)
  (fields : list value) : M unit :=
  fun w => (Ok tt, mkWorld _ (w_log w ++ [mkLog l template fields]) (w_store w)).

(** [logger.info] and [logger.warning] *)
Definition logger_info `{Collaborators} := log_at INFO.
Definition logger_warning `{Collaborators} := log_at WARNING.

(** [try: body except FileExistsError: handler] *)
Definition try_except_FileExistsError `{Collaborators}
  (body handler : M unit) : M unit :=
  fun w =>
    match body w with
    | (Raise FileExistsError, w') => handler w'
    | r => r
    end.

(* ===================================================================== *)
(** * The corpus stage: [filter_dataset_with_stats] *)
(* ===================================================================== *)

(** The predicate of the final filter: [lambda x: x["accepted"] == 1] *)
Definition is_accepted (x : pydict) : result bool :=
  accepted ← getitem x "accepted";
  Ok (py_eq accepted (VInt 1)).

(** [sum(dataset["size"]) / 1e9] *)
Definition size_gb (ds : Dataset) : result value :=
  sizes ← ds_column ds "size";
  total ← py_sum sizes;
  py_truediv total (VFloat f_1e9).

(** [(a - b) * 100 / a], as the script writes both percentages *)
Definition pct_removed (a b : value) : result value :=
  d ← py_sub a b;
  p ← py_mul d (VInt 100);
  py_truediv p a.

(** [filter_dataset_with_stats(dataset, args)].  The pass over the rows
    is that of one worker over a corpus no longer than a batch of the
    writer: the rows are evaluated in turn and written as one batch.
    The number of workers does not change what the evaluator computes
    on a row. *)
Definition filter_dataset_with_stats `{Collaborators} (dataset : Dataset)
  (args : FilteringArguments) : M Dataset :=
  let initial_size := VInt (ds_len dataset) in
  initial_size_gb ← lift (size_gb dataset);
  logger_info "=== Applying combined filters (basic, stars, comments) ===" [];;
  logger_info "Parameters:" [];;
  logger_info "- Basic: line_max={}, line_mean={}, alpha_frac={}"
    [line_max args; line_mean args; alpha_frac args];;
  logger_info "- Stars: threshold={}" [threshold_stars args];;
  logger_info "- Comments: min={}, max={}"
    [min_threshold_comments args; max_threshold_comments args];;
  dataset ← lift (ds_map stats_order
                    (fun example => combined_filter_map example args) dataset);
  filtered_dataset ← lift (ds_filter is_accepted dataset);
  let final_size := VInt (ds_len filtered_dataset) in
  final_size_gb ← lift (size_gb filtered_dataset);
  rejected_pct ← lift (pct_removed initial_size final_size);
  size_reduction_pct ← lift (pct_removed initial_size_gb final_size_gb);
  logger_info "Filtering completed in {:.2f} seconds" [];;
  logger_info "Dataset size before filtering: {} examples, {:.2f} GB"
    [initial_size; initial_size_gb];;
  logger_info "Dataset size after filtering: {} examples, {:.2f} GB"
    [final_size; final_size_gb];;
  logger_info "Percentage of removed files: {:.2f}%" [rejected_pct];;
  logger_info "Percentage of volume removed: {:.2f}%" [size_reduction_pct];;
  mret filtered_dataset.

(* ===================================================================== *)
(** * Persistence: [stream_to_disk] *)
(* ===================================================================== *)

(** The call of the writer, as a statement on the storage. *)
Definition call_save_manual_shards `{Collaborators} (dataset : Dataset)
  (args : FilteringArguments) : M unit :=
  fun w =>
    let '(r, s) :=
      save_manual_shards dataset (hub_username args) (remote_repo args)
        (out_path args) (subset args) (w_store w) in
    (r, mkWorld _ (w_log w) s).

(** [stream_to_disk(dataset, args)]: the line that reports the saving
    is inside the [try], after the call of the writer. *)
Definition stream_to_disk `{Collaborators} (dataset : Dataset)
  (args : FilteringArguments) : M unit :=
  logger_info "=== Streaming filtered dataset to disk ===" [];;
  try_except_FileExistsError
    (call_save_manual_shards dataset args;;
     logger_info "Dataset successfully saved at {}/{} in {:.2f} seconds"
       [out_path args; subset args])
    (logger_warning
       "Output dir already exists at {}/{}. Will not save filtered data"
       [out_path args; subset args]).

(* ===================================================================== *)
(** * The script body *)
(* ===================================================================== *)

(** [lambda example: {"size": len(example["content"])}] *)
Definition size_of_content (example : pydict) : result pydict :=
  content ← getitem example "content";
  n ← py_len content;
  Ok {["size" := n]}.

(** Add the size column if it is not present. *)
Definition add_size_column `{Collaborators} (dataset : Dataset) : M Dataset :=
  if decide ("size" ∈ column_names dataset) then mret dataset
  else
    logger_info "Adding text size column" [];;
    lift (ds_map ["size"] size_of_content dataset).

(** The body under [if __name__ == "__main__"], from the parsed
    arguments on; the set-up of the logging handlers is left out. *)
Definition main `{Collaborators} (args : FilteringArguments) : M unit :=
  logger_info "** Job started with arguments: ** {} ****" [];;
  logger_info "=== Loading {} and subset {} ==="
    [dataset_name args; subset args];;
  dataset ← lift (load_dataset (dataset_name args) (split args)
                     (subset args) (num_workers args));
  logger_info "Dataset loaded in {:.2f} seconds" [];;
  logger_info "Dataset: {}" [];;
  dataset ← add_size_column dataset;
  filtered_dataset ← filter_dataset_with_stats dataset args;
  stream_to_disk filtered_dataset args;;
  logger_info "=== Processing completed successfully ===" [].

(* ===================================================================== *)
(** * Concrete collaborators and records *)
(* ===================================================================== *)

Module Demo.

(** The float nearest to [n / d], as a decimal literal denotes it. *)
Definition fl (n d : Z) : value :=
  VFloat (SFdiv prec emax (raw_of_Z n) (raw_of_Z d)).

(** An oracle in the manner of [utils.text_extraction]: the share of
    [#] characters in the content.  It divides by the length of the
    content, so it raises on an empty one. *)
Definition hash_ratio (content : value) (lang : pystr) : result value :=
  match content with
  | VStr s =>
      py_truediv
        (VInt (Z.of_nat (length (filter (fun c => c = 35%N) s))))
        (VInt (Z.of_nat (length s)))
  | _ => Raise TypeError
  end.


(** A storage that remembers which destinations hold an output; the
    writer refuses a destination that is taken and writes nothing. *)
Definition shelf : Type := list (value * value).

Definition taken (out sub : value) (s : shelf) : bool :=
  existsb (fun d => py_eq d.1 out && py_eq d.2 sub) s.

Definition shelf_writer (ds : Dataset) (user repo out sub : value) (s : shelf)
  : result unit * shelf :=
  if taken out sub s then (Raise FileExistsError, s)
  else (Ok tt, (out, sub) :: s).

(** Records: [good] passes every gate, [long_line] fails the basic
    gate only, [tagged] is [good] with a field named as a tag,
    [doubly_tagged] fails the first basic test and carries the tag of
    the second, [starless] has a null star count, [boundary] has as many
    stars as the threshold, [empty] has no content. *)
Definition good : pydict :=
  {[ "content" := VStr (str_of "#a");
     "lang" := VStr (str_of "Python");
     "max_line_length" := VInt 80;
     "avg_line_length" := fl 61 2;
     "alphanum_fraction" := fl 3 4;
     "max_stars_count" := VInt 17;
     "size" := VInt 2 ]}.

Definition long_line : pydict := <["max_line_length" := VInt 1500]> good.

(** A record of 62 bytes that fails the basic gate. *)
Definition heavy : pydict :=
  <["content" :=
      VStr (str_of "#xxxxxxxxxxxxxxxxxxxxxxxxxxxxxxxxxxxxxxxxxxxxxxxxxxxxxxxxxxxxx")]>
    (<["size" := VInt 62]> long_line).

Definition tagged : pydict := <["stars_rejected" := VInt 1]> good.

Definition doubly_tagged : pydict :=
  <["basic_rejected_avg_line" := VInt 1]> long_line.

Definition starless : pydict := <["max_stars_count" := VNone]> good.

Definition boundary : pydict := <["max_stars_count" := VInt 5]> good.

Definition empty : pydict :=
  <["content" := VStr []]> (<["size" := VInt 0]> good).

(** A record whose content is one accented letter: one code point, two
    bytes in UTF-8. *)
Definition accented : pydict :=
  {[ "content" := VStr [233%N]; "lang" := VStr (str_of "Python") ]}.

Definition columns : gset string :=
  {[ "content"; "lang"; "max_line_length"; "avg_line_length";
     "alphanum_fraction"; "max_stars_count"; "size" ]}.

Definition corpus : Dataset := mkDataset columns [good; long_line; good].

Definition unsized : Dataset := mkDataset {[ "content"; "lang" ]} [accented].
Definition no_records : Dataset := mkDataset columns [].

(** The default thresholds of the script's arguments. *)
Definition args : FilteringArguments :=
  {| line_max := VInt 1000;
     line_mean := VInt 100;
     alpha_frac := fl 1 4;
     threshold_stars := VInt 5;
     min_threshold_comments := fl 1 100;
     max_threshold_comments := fl 4 5;
     num_workers := VInt 1;
     dataset_name := VStr (str_of "corpus");
     split := VStr (str_of "train");
     subset := VStr (str_of "data/python");
     hub_username := VStr (str_of "user");
     remote_repo := VStr (str_of "repo");
     out_path := VStr (str_of "out") |}.


Definition half_args : FilteringArguments :=
  {| line_max := line_max args;
     line_mean := line_mean args;
     alpha_frac := alpha_frac args;
     threshold_stars := threshold_stars args;
     min_threshold_comments := fl 1 2;
     max_threshold_comments := max_threshold_comments args;
     num_workers := num_workers args;
     dataset_name := dataset_name args;
     split := split args;
     subset := subset args;
     hub_username := hub_username args;
     remote_repo := remote_repo args;
     out_path := out_path args |}.

Definition loader (ds : Dataset) (name split data_dir num_proc : value)
  : result Dataset := Ok ds.

(** The collaborators of the runs below: an oracle and the corpus the
    loader returns. *)
Definition collaborators (oracle : value -> pystr -> result value)
  (ds : Dataset) : Collaborators :=
  {| str_lower := ascii_lower;
     get_nl_ratio := oracle;
     storage := shelf;
     save_manual_shards := shelf_writer;
     load_dataset := loader ds |}.

Definition strict : Collaborators := collaborators hash_ratio corpus.

Definition fresh {C : Collaborators} (s : @storage C) : @world C :=
  mkWorld C [] s.

(** Records with a field missing or null: [bare] is [long_line] without
    the two fields the later basic tests read, [no_content] and
    [null_lang] cannot be given to the oracle, [unmeasured] has floats
    that are not numbers. *)
Definition bare : pydict :=
  delete "avg_line_length" (delete "alphanum_fraction" long_line).
Definition no_content : pydict := delete "content" long_line.
Definition null_lang : pydict := <["lang" := VNone]> long_line.
Definition unmeasured : pydict :=
  <["avg_line_length" := VFloat S754_nan]>
    (<["alphanum_fraction" := VFloat S754_nan]> good).

(** An oracle that answers a NaN. *)
Definition nan_ratio (content : value) (lang : pystr) : result value :=
  Ok (VFloat S754_nan).
Definition unmeasuring : Collaborators := collaborators nan_ratio corpus.

(** A writer that fails for another reason than a taken destination,
    and a loader that cannot reach the corpus. *)
Definition broken_writer (ds : Dataset) (user repo out sub : value)
  (s : shelf) : result unit * shelf :=
  (Raise (OtherError "OSError"), s).

Definition broken : Collaborators :=
  {| str_lower := ascii_lower;
     get_nl_ratio := hash_ratio;
     storage := shelf;
     save_manual_shards := broken_writer;
     load_dataset := loader corpus |}.

Definition offline : Collaborators :=
  {| str_lower := ascii_lower;
     get_nl_ratio := hash_ratio;
     storage := shelf;
     save_manual_shards := shelf_writer;
     load_dataset := fun _ _ _ _ => Raise (OtherError "ConnectionError") |}.

(** A corpus whose [size] column holds a null, and a corpus of two
    records without a [size] column. *)
Definition null_sizes : Dataset :=
  mkDataset columns [good; <["size" := VNone]> good].

Definition unsized_pair : Dataset :=
  mkDataset (columns ∖ {[ "size" ]}) [delete "size" good; delete "size" heavy].

(** A corpus without a [size] column whose second record has a null
    content, and a corpus of which every record is accepted. *)
Definition untexted : Dataset :=
  mkDataset {[ "content"; "lang" ]} [accented; <["content" := VNone]> accented].

Definition all_good : Dataset := mkDataset columns [good; good].

(** Records that fail several basic tests at once: [crammed] fails the
    three of them, [dense] the second and the third.  [popular] is
    accepted as [good] is, with more stars. *)
Definition dense : pydict :=
  <["avg_line_length" := fl 250 1]> (<["alphanum_fraction" := fl 1 10]> good).
Definition crammed : pydict := <["max_line_length" := VInt 1500]> dense.
Definition popular : pydict := <["max_stars_count" := VInt 99]> good.

Definition late_empty : Dataset :=
  mkDataset columns [good; popular; empty; long_line].


(** The state a gate leaves, where it returns. *)
Definition state_of (r : result gate_state) : gate_state :=
  match r with
  | Ok st => st
  | Raise _ => (true, ∅)
  end.

(** The value of a computation that returns. *)
Definition value_of (r : result value) : value :=
  match r with
  | Ok v => v
  | Raise _ => VNone
  end.

(** The output of the evaluator on a record, where it returns. *)
Definition output (C : Collaborators) (example : pydict)
  (a : FilteringArguments) : pydict :=
  match @combined_filter_map C example a with
  | Ok out => out
  | Raise _ => ∅
  end.

(** The corpus the stage returns, where it returns. *)
Definition kept_of {C : Collaborators} (r : result Dataset * @world C)
  : Dataset :=
  match r.1 with
  | Ok ds => ds
  | Raise _ => no_records
  end.

(** An empty shelf, and one on which the destination of [args] is
    taken. *)
Definition no_shelf : shelf := [].
Definition full_shelf : shelf := [(out_path args, subset args)].

End Demo.

(* ===================================================================== *)
(** * The vocabulary of the specification *)
(* ===================================================================== *)

(** The three basic tags, in the order of the chain, and all five
    rejection tags. *)
Definition basic_tags : list string :=
  ["basic_rejected_max_line"; "basic_rejected_avg_line";
   "basic_rejected_alphanum"].

Definition rejection_tags : list string :=
  basic_tags ++ ["stars_rejected"; "comments_rejected"].

(** The conditions of the gates, as the specification words them. *)
Definition max_line_test (example : pydict) (args : FilteringArguments)
  : result bool :=
  v ← getitem example "max_line_length"; py_gt v (line_max args).

Definition avg_line_test (example : pydict) (args : FilteringArguments)
  : result bool :=
  v ← getitem example "avg_line_length"; py_gt v (line_mean args).

Definition alphanum_test (example : pydict) (args : FilteringArguments)
  : result bool :=
  v ← getitem example "alphanum_fraction"; py_lt v (alpha_frac args).

Definition stars_test (example : pydict) (args : FilteringArguments)
  : result bool :=
  py_le (normalized_stars example) (threshold_stars args).

Definition comments_test (nl_ratio : value) (args : FilteringArguments)
  : result bool :=
  c ← py_le nl_ratio (min_threshold_comments args);
  if c : bool then Ok true else py_ge nl_ratio (max_threshold_comments args).

(** The four ways out of the basic gate. *)
Inductive basic_verdict :=
| RejMaxLine
| RejAvgLine
| RejAlphanum
| BasicPass.

Definition basic_tag (b : basic_verdict) : option string :=
  match b with
  | RejMaxLine => Some "basic_rejected_max_line"
  | RejAvgLine => Some "basic_rejected_avg_line"
  | RejAlphanum => Some "basic_rejected_alphanum"
  | BasicPass => None
  end.

Definition basic_passes (b : basic_verdict) : bool :=
  match b with
  | BasicPass => true
  | _ => false
  end.

(** First match wins: a verdict holds when its test is true and the
    tests before it are false. *)
Definition basic_holds (example : pydict) (args : FilteringArguments)
  (b : basic_verdict) : Prop :=
  match b with
  | RejMaxLine => max_line_test example args = Ok true
  | RejAvgLine =>
      max_line_test example args = Ok false ∧
      avg_line_test example args = Ok true
  | RejAlphanum =>
      max_line_test example args = Ok false ∧
      avg_line_test example args = Ok false ∧
      alphanum_test example args = Ok true
  | BasicPass =>
      max_line_test example args = Ok false ∧
      avg_line_test example args = Ok false ∧
      alphanum_test example args = Ok false
  end.

Definition with_tag (t : option string) (stats : pydict) : pydict :=
  match t with
  | Some k => <[k := VInt 1]> stats
  | None => stats
  end.

Definition tag_if (c : bool) (k : string) : option string :=
  if c then Some k else None.

(** The [stats] of a record whose gates came out as [b], [cs] (stars
    rejected) and [cc] (comments rejected), with the ratio [r]. *)
Definition diagnostics (example : pydict) (b : basic_verdict)
  (cs cc : bool) (r : value) : pydict :=
  <["accepted" := VInt (if basic_passes b && negb cs && negb cc then 1 else 0)]>
    (with_tag (tag_if cc "comments_rejected")
       (<["nl_ratio" := r]>
          (with_tag (tag_if cs "stars_rejected")
             (<["stars" := normalized_stars example]>
                (with_tag (basic_tag b) ∅))))).

(** The outcome of the persistence step, read from the line it logs. *)
Inductive Outcome := Saved | SkippedExisting.

Definition outcome_of (r : log_record) : option Outcome :=
  match log_level r, log_template r with
  | INFO, "Dataset successfully saved at {}/{} in {:.2f} seconds" =>
      Some Saved
  | WARNING, "Output dir already exists at {}/{}. Will not save filtered data" =>
      Some SkippedExisting
  | _, _ => None
  end.


(** What a run of the evaluator on [example] amounts to: the verdict of
    each gate and the ratio of the oracle. *)
Definition evaluates `{Collaborators} (example : pydict)
  (args : FilteringArguments) (b : basic_verdict) (cs cc : bool) (r : value)
  : Prop :=
  basic_holds example args b ∧
  stars_test example args = Ok cs ∧
  (∃ content lang,
     example !! "content" = Some content ∧
     example !! "lang" = Some (VStr lang) ∧
     get_nl_ratio content (str_lower lang) = Ok r) ∧
  comments_test r args = Ok cc.

(** [x["accepted"] == 1], false for a row without the field. *)
Definition accepted_flag (x : pydict) : bool :=
  match x !! "accepted" with
  | Some v => py_eq v (VInt 1)
  | None => false
  end.

(** The [size] fields of a list of rows. *)
Definition sizes_of (l : list pydict) : list value :=
  (fun r : pydict => default VNone (r !! "size")) <$> l.

(** The lines the corpus stage logs before the pass and after it. *)
Definition parameters_log (args : FilteringArguments) : list log_record :=
  [ mkLog INFO "=== Applying combined filters (basic, stars, comments) ===" [];
    mkLog INFO "Parameters:" [];
    mkLog INFO "- Basic: line_max={}, line_mean={}, alpha_frac={}"
      [line_max args; line_mean args; alpha_frac args];
    mkLog INFO "- Stars: threshold={}" [threshold_stars args];
    mkLog INFO "- Comments: min={}, max={}"
      [min_threshold_comments args; max_threshold_comments args] ].

Definition statistics_log
  (initial_size initial_size_gb final_size final_size_gb : value)
  (rejected_pct size_reduction_pct : value) : list log_record :=
  [ mkLog INFO "Filtering completed in {:.2f} seconds" [];
    mkLog INFO "Dataset size before filtering: {} examples, {:.2f} GB"
      [initial_size; initial_size_gb];
    mkLog INFO "Dataset size after filtering: {} examples, {:.2f} GB"
      [final_size; final_size_gb];
    mkLog INFO "Percentage of removed files: {:.2f}%" [rejected_pct];
    mkLog INFO "Percentage of volume removed: {:.2f}%" [size_reduction_pct] ].

(** The lines of the persistence step when the destination is taken,
    and the last line of the script. *)
Definition skipped_log (args : FilteringArguments) : list log_record :=
  [ mkLog INFO "=== Streaming filtered dataset to disk ===" [];
    mkLog WARNING
      "Output dir already exists at {}/{}. Will not save filtered data"
      [out_path args; subset args] ].

Definition completed_line : log_record :=
  mkLog INFO "=== Processing completed successfully ===" [].

(** The lines of the script before the corpus stage. *)
Definition loading_log (args : FilteringArguments) : list log_record :=
  [ mkLog INFO "** Job started with arguments: ** {} ****" [];
    mkLog INFO "=== Loading {} and subset {} ==="
      [dataset_name args; subset args];
    mkLog INFO "Dataset loaded in {:.2f} seconds" [];
    mkLog INFO "Dataset: {}" [] ].


(** A row with its size set to the length of a content. *)
Definition sized (example : pydict) (content : pystr) : pydict :=
  <["size" := VInt (Z.of_nat (length content))]> example.

(** The world after more lines were logged. *)
Definition logged `{Collaborators} (w : world) (l : list log_record) : world :=
  mkWorld _ (w_log w ++ l) (w_store w).

(** The fields the evaluator writes, and the fields of the record it
    reads. *)
Definition diagnostic_fields : list string :=
  ["stars"; "nl_ratio"; "accepted"] ++ rejection_tags.

Definition input_fields : list string :=
  ["max_line_length"; "avg_line_length"; "alphanum_fraction";
   "max_stars_count"; "content"; "lang"].

(** The lines of the persistence step when the writer returns. *)
Definition saved_log (args : FilteringArguments) : list log_record :=
  [ mkLog INFO "=== Streaming filtered dataset to disk ===" [];
    mkLog INFO "Dataset successfully saved at {}/{} in {:.2f} seconds"
      [out_path args; subset args] ].

(** A statement that only logs: whatever its outcome, it leaves the
    storage as it found it and the lines logged before it in place. *)
Definition only_logs `{Collaborators} {A : Type} (m : M A) : Prop :=
  ∀ w r w', m w = (r, w') ->
    w_store w' = w_store w ∧ ∃ l, w_log w' = (w_log w ++ l)%list.

(** A number: an integer or a float. *)
Definition is_number (v : value) : Prop := is_Some (as_num v).

(** The float that is not a number. *)
Definition nan : value := VFloat S754_nan.

(** Every row of the batch has the fields that were added to the
    first: what the writer needs to write the batch. *)
Definition batch_complete (rs xs : list pydict) : Prop :=
  match rs, xs with
  | r0 :: _, x0 :: _ =>
      ∀ k, r0 !! k = None -> is_Some (x0 !! k) ->
           Forall (fun x : pydict => is_Some (x !! k)) xs
  | _, _ => True
  end.

(** A written row holds the decision, the size, the stars and the ratio
    of the output it is written from. *)
Definition same_record (out row : pydict) : Prop :=
  row !! "accepted" = out !! "accepted" ∧
  row !! "size" = out !! "size" ∧
  row !! "stars" = out !! "stars" ∧
  row !! "nl_ratio" = out !! "nl_ratio".

(* ===================================================================== *)
(** * Lemmas on the monads and the values *)
(* ===================================================================== *)

Lemma bind_Ok {A B : Type} (m : result A) (f : A -> result B) (b : B) :
  m ≫= f = Ok b ↔ ∃ a, m = Ok a ∧ f a = Ok b.
Proof.
  destruct m as [a|e]; simpl; split.
  - intros Hf. exists a. split; [reflexivity | exact Hf].
  - intros (a' & Ha & Hf). injection Ha as ->. exact Hf.
  - discriminate.
  - intros (a' & Ha & _). discriminate.
Qed.

(** Peel the binds of a successful run, left to right. *)
Ltac ok_inv H :=
  repeat match type of H with
  | _ ≫= _ = Ok _ =>
      let a := fresh "a" in
      let E := fresh "E" in
      apply bind_Ok in H as (a & E & H)
  end.

Lemma getitem_Ok (d : pydict) (k : string) (v : value) :
  getitem d k = Ok v ↔ d !! k = Some v.
Proof.
  unfold getitem. destruct (d !! k); split; intros Hd;
    try discriminate; congruence.
Qed.

Lemma py_eq_compare (a b : value) (c : option comparison) :
  py_eq a b = true -> py_compare a b = Ok c -> c = Some Eq.
Proof.
  unfold py_eq. intros He Hc. rewrite Hc in He.
  destruct a, b; try discriminate Hc;
    destruct c as [[]|]; try discriminate He; reflexivity.
Qed.

Lemma py_eq_le (a b : value) (c : bool) :
  py_eq a b = true -> py_le a b = Ok c -> c = true.
Proof.
  intros He Hl. unfold py_le in Hl. ok_inv Hl.
  rewrite (py_eq_compare _ _ _ He E) in Hl. congruence.
Qed.

Lemma py_eq_ge (a b : value) (c : bool) :
  py_eq a b = true -> py_ge a b = Ok c -> c = true.
Proof.
  intros He Hl. unfold py_ge in Hl. ok_inv Hl.
  rewrite (py_eq_compare _ _ _ He E) in Hl. congruence.
Qed.

(* ===================================================================== *)
(** * The gates, one at a time *)
(* ===================================================================== *)

(** A leaf of the chain: the run either raised, and no verdict holds,
    or it stopped with the verdict [b]. *)
Ltac basic_leaf b :=
  split;
  [ intros Hrun; first
      [ discriminate Hrun
      | injection Hrun as <-; exists b; simpl; auto ]
  | let v := fresh "v" in
    let Hv := fresh "Hv" in
    intros (v & Hv & ->); destruct v; simpl in Hv;
    first [ reflexivity | exfalso; intuition discriminate ] ].

(** The basic gate returns exactly when the chain reaches a verdict, and
    then tags the record with the tag of that verdict. *)
Lemma basic_filters_Ok (example : pydict) (args : FilteringArguments)
  (st st' : gate_state) :
  basic_filters example args st = Ok st' ↔
  ∃ b, basic_holds example args b ∧
       st' = (if basic_passes b then st.1 else false,
              with_tag (basic_tag b) st.2).
Proof.
  unfold basic_filters, basic_holds, max_line_test, avg_line_test,
    alphanum_test.
  destruct st as [is_valid stats]. simpl fst. simpl snd.
  destruct (getitem example "max_line_length") as [v1|e1]; simpl;
    [destruct (py_gt v1 (line_max args)) as [[|]|e1]; simpl |];
    [ basic_leaf RejMaxLine | | basic_leaf BasicPass | basic_leaf BasicPass ].
  destruct (getitem example "avg_line_length") as [v2|e2]; simpl;
    [destruct (py_gt v2 (line_mean args)) as [[|]|e2]; simpl |];
    [ basic_leaf RejAvgLine | | basic_leaf BasicPass | basic_leaf BasicPass ].
  destruct (getitem example "alphanum_fraction") as [v3|e3]; simpl;
    [destruct (py_lt v3 (alpha_frac args)) as [[|]|e3]; simpl |];
    [ basic_leaf RejAlphanum | basic_leaf BasicPass
    | basic_leaf BasicPass | basic_leaf BasicPass ].
Qed.

Lemma stars_filter_Ok (example : pydict) (args : FilteringArguments)
  (st st' : gate_state) :
  stars_filter example args st = Ok st' ↔
  ∃ cs, stars_test example args = Ok cs ∧
        st' = (if cs then false else st.1,
               with_tag (tag_if cs "stars_rejected")
                 (<["stars" := normalized_stars example]> st.2)).
Proof.
  unfold stars_filter, stars_test. split.
  - intros Hs. ok_inv Hs. exists a. split; [exact E|].
    destruct a; injection Hs as <-; reflexivity.
  - intros (cs & Hc & ->). rewrite Hc. destruct cs; reflexivity.
Qed.

Lemma comments_filter_Ok `{Collaborators} (example : pydict)
  (args : FilteringArguments) (st st' : gate_state) :
  comments_filter example args st = Ok st' ↔
  ∃ content lang r cc,
    example !! "content" = Some content ∧
    example !! "lang" = Some (VStr lang) ∧
    get_nl_ratio content (str_lower lang) = Ok r ∧
    comments_test r args = Ok cc ∧
    st' = (if cc then false else st.1,
           with_tag (tag_if cc "comments_rejected")
             (<["nl_ratio" := r]> st.2)).
Proof.
  unfold comments_filter, comments_test. split.
  - intros Hc. ok_inv Hc.
    apply getitem_Ok in E, E0.
    destruct a0 as [| |?|lang]; try discriminate E1.
    injection E1 as <-.
    exists a, lang, a2, a4. repeat split; try assumption.
    + rewrite E3. exact E4.
    + destruct a4; injection Hc as <-; reflexivity.
  - intros (content & lang & r & cc & Hco & Hl & Hr & Ht & ->).
    apply getitem_Ok in Hco, Hl. rewrite Hco. simpl. rewrite Hl. simpl.
    rewrite Hr. simpl. ok_inv Ht. rewrite E. simpl. rewrite Ht.
    destruct cc; reflexivity.
Qed.

(** No gate restores validity: a record that enters a gate invalid
    leaves it invalid. *)
Lemma basic_filters_downgrades (example : pydict) (args : FilteringArguments)
  (st st' : gate_state) :
  basic_filters example args st = Ok st' -> st.1 = false -> st'.1 = false.
Proof.
  intros Hg Hv. apply basic_filters_Ok in Hg as (b & _ & ->).
  simpl. rewrite Hv. destruct (basic_passes b); reflexivity.
Qed.

Lemma stars_filter_downgrades (example : pydict) (args : FilteringArguments)
  (st st' : gate_state) :
  stars_filter example args st = Ok st' -> st.1 = false -> st'.1 = false.
Proof.
  intros Hg Hv. apply stars_filter_Ok in Hg as (c & _ & ->).
  simpl. rewrite Hv. destruct c; reflexivity.
Qed.

Lemma comments_filter_downgrades `{Collaborators} (example : pydict)
  (args : FilteringArguments) (st st' : gate_state) :
  comments_filter example args st = Ok st' -> st.1 = false -> st'.1 = false.
Proof.
  intros Hg Hv.
  apply comments_filter_Ok in Hg as (? & ? & ? & c & _ & _ & _ & _ & ->).
  simpl. rewrite Hv. destruct c; reflexivity.
Qed.

(** ** The whole evaluator *)

Lemma combined_filter_stats_Ok `{Collaborators} (example : pydict)
  (args : FilteringArguments) (stats : pydict) :
  combined_filter_stats example args = Ok stats ↔
  ∃ b cs cc r, evaluates example args b cs cc r ∧
               stats = diagnostics example b cs cc r.
Proof.
  unfold combined_filter_stats, evaluates. split.
  - intros Hs. ok_inv Hs.
    apply basic_filters_Ok in E as (b & Hb & ->).
    apply stars_filter_Ok in E0 as (cs & Hcs & ->).
    apply comments_filter_Ok in E1
      as (content & lang & r & cc & Hco & Hl & Hr & Hcc & ->).
    exists b, cs, cc, r. split.
    + repeat split; try assumption. exists content, lang. auto.
    + injection Hs as <-. simpl. unfold diagnostics.
      destruct b, cs, cc; reflexivity.
  - intros (b & cs & cc & r & (Hb & Hcs & (content & lang & Hco & Hl & Hr) & Hcc) & ->).
    apply bind_Ok. eexists. split.
    { apply basic_filters_Ok. exists b. split; [exact Hb | reflexivity]. }
    apply bind_Ok. eexists. split.
    { apply stars_filter_Ok. exists cs. split; [exact Hcs | reflexivity]. }
    apply bind_Ok. eexists. split.
    { apply comments_filter_Ok. exists content, lang, r, cc. auto. }
    simpl. unfold diagnostics. destruct b, cs, cc; reflexivity.
Qed.

Lemma combined_filter_map_Ok `{Collaborators} (example : pydict)
  (args : FilteringArguments) (out : pydict) :
  combined_filter_map example args = Ok out ↔
  ∃ b cs cc r, evaluates example args b cs cc r ∧
               out = diagnostics example b cs cc r ∪ example.
Proof.
  unfold combined_filter_map. split.
  - intros Ho. ok_inv Ho. injection Ho as <-.
    apply combined_filter_stats_Ok in E as (b & cs & cc & r & He & ->).
    exists b, cs, cc, r. auto.
  - intros (b & cs & cc & r & He & ->).
    apply bind_Ok. eexists. split; [|reflexivity].
    apply combined_filter_stats_Ok. exists b, cs, cc, r. auto.
Qed.

(** ** What the diagnostics hold under each key *)

Lemma diagnostics_accepted (example : pydict) b cs cc r :
  diagnostics example b cs cc r !! "accepted" =
  Some (VInt (if basic_passes b && negb cs && negb cc then 1 else 0)).
Proof. unfold diagnostics. apply lookup_insert_eq. Qed.

Lemma diagnostics_stars (example : pydict) b cs cc r :
  diagnostics example b cs cc r !! "stars" = Some (normalized_stars example).
Proof. destruct b, cs, cc; reflexivity. Qed.

Lemma diagnostics_nl_ratio (example : pydict) b cs cc r :
  diagnostics example b cs cc r !! "nl_ratio" = Some r.
Proof. destruct b, cs, cc; reflexivity. Qed.

Lemma diagnostics_stars_rejected (example : pydict) b cs cc r :
  diagnostics example b cs cc r !! "stars_rejected" =
  if cs then Some (VInt 1) else None.
Proof. destruct b, cs, cc; reflexivity. Qed.

Lemma diagnostics_comments_rejected (example : pydict) b cs cc r :
  diagnostics example b cs cc r !! "comments_rejected" =
  if cc then Some (VInt 1) else None.
Proof. destruct b, cs, cc; reflexivity. Qed.

Lemma diagnostics_basic (example : pydict) b cs cc r (t : string) :
  t ∈ basic_tags ->
  diagnostics example b cs cc r !! t =
  if decide (basic_tag b = Some t) then Some (VInt 1) else None.
Proof.
  unfold basic_tags. rewrite !elem_of_cons, elem_of_nil.
  intros [-> | [-> | [-> | []]]]; destruct b, cs, cc; reflexivity.
Qed.

(** ** The output: [stats] over the record *)

Lemma output_lookup_stats (stats example : pydict) (k : string) (v : value) :
  stats !! k = Some v -> (stats ∪ example) !! k = Some v.
Proof. apply lookup_union_Some_l. Qed.

Lemma output_lookup_example (stats example : pydict) (k : string) :
  stats !! k = None -> (stats ∪ example) !! k = example !! k.
Proof. apply lookup_union_r. Qed.

(** The run of the evaluator as the three gates, each on the state the
    one before left. *)
Lemma combined_filter_map_trace `{Collaborators} (example : pydict)
  (args : FilteringArguments) (out : pydict) :
  combined_filter_map example args = Ok out ->
  ∃ st1 st2 st3,
    basic_filters example args (true, ∅) = Ok st1 ∧
    stars_filter example args st1 = Ok st2 ∧
    comments_filter example args st2 = Ok st3 ∧
    out = <["accepted" := VInt (if st3.1 then 1 else 0)]> st3.2 ∪ example.
Proof.
  unfold combined_filter_map, combined_filter_stats. intros Ho.
  apply bind_Ok in Ho as (stats & Hs & [= <-]).
  apply bind_Ok in Hs as (st1 & H1 & Hs).
  apply bind_Ok in Hs as (st2 & H2 & Hs).
  apply bind_Ok in Hs as (st3 & H3 & [= <-]).
  exists st1, st2, st3. auto.
Qed.

Lemma elem_of_rejection_tags (t : string) :
  t ∈ rejection_tags ↔
  t ∈ basic_tags ∨ t = "stars_rejected" ∨ t = "comments_rejected".
Proof.
  unfold rejection_tags. rewrite elem_of_app, !elem_of_cons, elem_of_nil.
  tauto.
Qed.

Lemma basic_tag_elem (b : basic_verdict) (t : string) :
  basic_tag b = Some t -> t ∈ basic_tags.
Proof.
  unfold basic_tags. destruct b; intros [= <-]; set_solver.
Qed.

(* ===================================================================== *)
(** * Properties of the evaluator *)
(* ===================================================================== *)

(** C1 (as the code has it): for a record that does not itself carry a
    field named as a rejection tag, the output has [accepted == 1] if and
    only if no rejection tag is present in it; [accepted] is [1] or [0];
    and validity, which starts true, is only downgraded: a gate that
    receives an invalid record leaves it invalid, and [accepted] is [1]
    exactly when the last gate leaves the record valid. *)
Theorem accepted_iff_no_rejection_tag `{Collaborators} (example : pydict)
  (args : FilteringArguments) (out : pydict) :
  (∀ t, t ∈ rejection_tags -> example !! t = None) ->
  combined_filter_map example args = Ok out ->
  (out !! "accepted" = Some (VInt 1) ↔
   ∀ t, t ∈ rejection_tags -> out !! t = None) ∧
  (out !! "accepted" = Some (VInt 1) ∨ out !! "accepted" = Some (VInt 0)) ∧
  ∃ st1 st2 st3,
    basic_filters example args (true, ∅) = Ok st1 ∧
    stars_filter example args st1 = Ok st2 ∧
    comments_filter example args st2 = Ok st3 ∧
    (st1.1 = false -> st2.1 = false) ∧
    (st2.1 = false -> st3.1 = false) ∧
    (out !! "accepted" = Some (VInt 1) ↔ st3.1 = true).
Proof.
  intros Hfree Hrun. split; [|split].
  - apply combined_filter_map_Ok in Hrun as (b & cs & cc & r & _ & ->).
    rewrite (output_lookup_stats _ _ _ _ (diagnostics_accepted example b cs cc r)).
    split.
    + intros Hacc t Ht.
      assert (basic_passes b = true ∧ cs = false ∧ cc = false) as (Hb & -> & ->).
      { destruct (basic_passes b), cs, cc; simpl in Hacc;
          try discriminate Hacc; auto. }
      rewrite output_lookup_example; [apply Hfree, Ht|].
      apply elem_of_rejection_tags in Ht as [Ht | [-> | ->]].
      * rewrite (diagnostics_basic _ _ _ _ _ _ Ht).
        destruct b; try discriminate Hb. reflexivity.
      * apply diagnostics_stars_rejected.
      * apply diagnostics_comments_rejected.
    + intros Hnone.
      destruct cs.
      { specialize (Hnone "stars_rejected").
        rewrite (output_lookup_stats _ _ _ (VInt 1)) in Hnone.
        - discriminate Hnone. apply elem_of_rejection_tags. auto.
        - apply diagnostics_stars_rejected. }
      destruct cc.
      { specialize (Hnone "comments_rejected").
        rewrite (output_lookup_stats _ _ _ (VInt 1)) in Hnone.
        - discriminate Hnone. apply elem_of_rejection_tags. auto.
        - apply diagnostics_comments_rejected. }
      destruct (basic_tag b) as [t|] eqn:Hb.
      { pose proof (basic_tag_elem _ _ Hb) as Ht.
        specialize (Hnone t).
        rewrite (output_lookup_stats _ _ _ (VInt 1)) in Hnone.
        - discriminate Hnone. apply elem_of_rejection_tags. auto.
        - rewrite (diagnostics_basic _ _ _ _ _ _ Ht), Hb.
          rewrite decide_True by reflexivity. reflexivity. }
      destruct b; try discriminate Hb. reflexivity.
  - apply combined_filter_map_Ok in Hrun as (b & cs & cc & r & _ & ->).
    rewrite (output_lookup_stats _ _ _ _ (diagnostics_accepted example b cs cc r)).
    destruct (basic_passes b && negb cs && negb cc); auto.
  - apply combined_filter_map_trace in Hrun as (st1 & st2 & st3 & H1 & H2 & H3 & ->).
    exists st1, st2, st3. repeat split; try assumption.
    + apply (stars_filter_downgrades _ _ _ _ H2).
    + apply (comments_filter_downgrades _ _ _ _ H3).
    + rewrite (output_lookup_stats _ _ "accepted" _ (lookup_insert_eq _ _ _)).
      destruct st3.1; [reflexivity | discriminate].
    + intros ->.
      apply (output_lookup_stats _ _ "accepted" _ (lookup_insert_eq _ _ _)).
Qed.

(** C2: boundary values reject.  When the normalized stars value equals
    [threshold_stars] the output carries [stars_rejected] and is not
    accepted; when the ratio recorded under [nl_ratio] equals
    [min_threshold_comments] or [max_threshold_comments] the output
    carries [comments_rejected] and is not accepted. *)
Theorem boundary_values_reject `{Collaborators} (example : pydict)
  (args : FilteringArguments) (out : pydict) :
  combined_filter_map example args = Ok out ->
  (py_eq (normalized_stars example) (threshold_stars args) = true ->
   out !! "stars_rejected" = Some (VInt 1) ∧
   out !! "accepted" = Some (VInt 0)) ∧
  (∀ nl_ratio,
     out !! "nl_ratio" = Some nl_ratio ->
     py_eq nl_ratio (min_threshold_comments args) = true ∨
     py_eq nl_ratio (max_threshold_comments args) = true ->
     out !! "comments_rejected" = Some (VInt 1) ∧
     out !! "accepted" = Some (VInt 0)).
Proof.
  intros Hrun.
  apply combined_filter_map_Ok in Hrun
    as (b & cs & cc & r & (_ & Hcs & _ & Hcc) & ->).
  split.
  - intros Heq. unfold stars_test in Hcs.
    rewrite (py_eq_le _ _ _ Heq Hcs). split.
    + apply output_lookup_stats, diagnostics_stars_rejected.
    + rewrite (output_lookup_stats _ _ _ _ (diagnostics_accepted _ _ _ _ _)).
      destruct (basic_passes b); reflexivity.
  - intros nl_ratio Hnl Heq.
    rewrite (output_lookup_stats _ _ _ _ (diagnostics_nl_ratio _ _ _ _ _)) in Hnl.
    injection Hnl as <-.
    assert (cc = true) as ->.
    { unfold comments_test in Hcc.
      apply bind_Ok in Hcc as (c1 & Hmin & Hmax).
      destruct c1; [congruence|].
      destruct Heq as [Heq | Heq].
      - pose proof (py_eq_le _ _ _ Heq Hmin). discriminate.
      - apply (py_eq_ge _ _ _ Heq Hmax). }
    split.
    + apply output_lookup_stats, diagnostics_comments_rejected.
    + rewrite (output_lookup_stats _ _ _ _ (diagnostics_accepted _ _ _ _ _)).
      destruct (basic_passes b), cs; reflexivity.
Qed.

(** C3 (as the code has it): for a record that does not itself carry a
    field named as a basic tag, at most one basic tag is present in the
    output, and it is the first match of the chain: the max-line tag
    when the max-line test holds, the avg-line tag when it does not and
    the avg-line test holds, the alphanum tag when neither does and the
    alphanum test holds. *)
Theorem at_most_one_basic_tag `{Collaborators} (example : pydict)
  (args : FilteringArguments) (out : pydict) :
  (∀ t, t ∈ basic_tags -> example !! t = None) ->
  combined_filter_map example args = Ok out ->
  (∀ t1 t2, t1 ∈ basic_tags -> t2 ∈ basic_tags ->
     is_Some (out !! t1) -> is_Some (out !! t2) -> t1 = t2) ∧
  (is_Some (out !! "basic_rejected_max_line") ↔
   max_line_test example args = Ok true) ∧
  (is_Some (out !! "basic_rejected_avg_line") ↔
   max_line_test example args = Ok false ∧
   avg_line_test example args = Ok true) ∧
  (is_Some (out !! "basic_rejected_alphanum") ↔
   max_line_test example args = Ok false ∧
   avg_line_test example args = Ok false ∧
   alphanum_test example args = Ok true).
Proof.
  intros Hfree Hrun.
  apply combined_filter_map_Ok in Hrun
    as (b & cs & cc & r & (Hb & _) & ->).
  assert (Htag : ∀ t, t ∈ basic_tags ->
    is_Some ((diagnostics example b cs cc r ∪ example) !! t) ↔
    basic_tag b = Some t).
  { intros t Ht. pose proof (diagnostics_basic example b cs cc r t Ht) as Hd.
    destruct (decide (basic_tag b = Some t)) as [Hy | Hn].
    - rewrite (output_lookup_stats _ _ _ _ Hd). split; [auto | eauto].
    - rewrite (output_lookup_example _ _ _ Hd), (Hfree t Ht).
      split; [intros [? [=]] | intros; contradiction]. }
  split; [|split; [|split]].
  - intros t1 t2 Ht1 Ht2 H1 H2.
    apply (Htag t1 Ht1) in H1. apply (Htag t2 Ht2) in H2. congruence.
  - etransitivity; [apply Htag; unfold basic_tags; repeat constructor|].
    destruct b; simpl in Hb; split; intros Ht; try discriminate Ht;
      try reflexivity; try assumption;
      exfalso; intuition congruence.
  - etransitivity; [apply Htag; unfold basic_tags; repeat constructor|].
    destruct b; simpl in Hb; split; intros Ht; try discriminate Ht;
      try reflexivity; try assumption;
      exfalso; intuition congruence.
  - etransitivity; [apply Htag; unfold basic_tags; repeat constructor|].
    destruct b; simpl in Hb; split; intros Ht; try discriminate Ht;
      try reflexivity; try assumption;
      exfalso; intuition congruence.
Qed.

(** C4: for a record whose [max_stars_count] is absent or [None], the
    stars value is [0]: [0] is recorded under [stars], and the stars
    gate is the test [0 <= threshold_stars], which tags and rejects the
    record when it holds and leaves the field [stars_rejected] as the
    record had it when it does not. *)
Theorem null_stars_count_is_zero `{Collaborators} (example : pydict)
  (args : FilteringArguments) (out : pydict) :
  example !! "max_stars_count" = None ∨
  example !! "max_stars_count" = Some VNone ->
  combined_filter_map example args = Ok out ->
  out !! "stars" = Some (VInt 0) ∧
  ∃ c, py_le (VInt 0) (threshold_stars args) = Ok c ∧
       (c = true ->
        out !! "stars_rejected" = Some (VInt 1) ∧
        out !! "accepted" = Some (VInt 0)) ∧
       (c = false ->
        out !! "stars_rejected" = example !! "stars_rejected").
Proof.
  intros Hnull Hrun.
  assert (Hzero : normalized_stars example = VInt 0).
  { unfold normalized_stars. destruct Hnull as [-> | ->]; reflexivity. }
  apply combined_filter_map_Ok in Hrun
    as (b & cs & cc & r & (_ & Hcs & _) & ->).
  unfold stars_test in Hcs. rewrite Hzero in Hcs. split.
  - rewrite <- Hzero. apply output_lookup_stats, diagnostics_stars.
  - exists cs. split; [exact Hcs|]. split; intros ->.
    + split.
      * apply output_lookup_stats, diagnostics_stars_rejected.
      * rewrite (output_lookup_stats _ _ _ _ (diagnostics_accepted _ _ _ _ _)).
        destruct (basic_passes b); reflexivity.
    + apply output_lookup_example, diagnostics_stars_rejected.
Qed.

(** C5: whatever the basic gate decided and whatever the decision, an
    output of the evaluator holds the field [stars], with the normalized
    stars value, and the field [nl_ratio], with the ratio the oracle
    returned for the content and the lower-cased language. *)
Theorem stars_and_nl_ratio_always_recorded `{Collaborators}
  (example : pydict) (args : FilteringArguments) (out : pydict) :
  combined_filter_map example args = Ok out ->
  out !! "stars" = Some (normalized_stars example) ∧
  ∃ content lang nl_ratio,
    example !! "content" = Some content ∧
    example !! "lang" = Some (VStr lang) ∧
    get_nl_ratio content (str_lower lang) = Ok nl_ratio ∧
    out !! "nl_ratio" = Some nl_ratio.
Proof.
  intros Hrun.
  apply combined_filter_map_Ok in Hrun
    as (b & cs & cc & r & (_ & _ & (content & lang & Hc & Hl & Hr) & _) & ->).
  split.
  - apply output_lookup_stats, diagnostics_stars.
  - exists content, lang, r. repeat split; try assumption.
    apply output_lookup_stats, diagnostics_nl_ratio.
Qed.

(* ===================================================================== *)
(** * The corpus stage *)
(* ===================================================================== *)

Lemma logged_logged `{Collaborators} (w : world) (l1 l2 : list log_record) :
  logged (logged w l1) l2 = logged w (l1 ++ l2).
Proof. unfold logged. simpl. rewrite <- app_assoc. reflexivity. Qed.

Lemma logged_nil `{Collaborators} (w : world) : logged w [] = w.
Proof. unfold logged. rewrite app_nil_r. destruct w; reflexivity. Qed.

(** The output of the evaluator already holds every field of the
    record, so updating the row with it gives the output itself. *)
Lemma output_over_example (stats example : pydict) :
  (stats ∪ example) ∪ example = stats ∪ example.
Proof.
  rewrite <- (assoc_L (∪)). rewrite (idemp_L (∪) example). reflexivity.
Qed.

Lemma combined_filter_map_updates `{Collaborators} (example : pydict)
  (args : FilteringArguments) (out : pydict) :
  combined_filter_map example args = Ok out -> out ∪ example = out.
Proof.
  unfold combined_filter_map. intros Ho.
  apply bind_Ok in Ho as (stats & _ & [= <-]). apply output_over_example.
Qed.

(** The evaluator leaves the [size] of a record as it is. *)
Lemma combined_filter_map_size `{Collaborators} (example : pydict)
  (args : FilteringArguments) (out : pydict) :
  combined_filter_map example args = Ok out ->
  out !! "size" = example !! "size".
Proof.
  intros Ho. apply combined_filter_map_Ok in Ho as (b & cs & cc & r & _ & ->).
  apply output_lookup_example. destruct b, cs, cc; reflexivity.
Qed.

(** An output of the evaluator is accepted by the final filter exactly
    when its flag is set. *)
Lemma is_accepted_output `{Collaborators} (example : pydict)
  (args : FilteringArguments) (out : pydict) :
  combined_filter_map example args = Ok out ->
  is_accepted out = Ok (accepted_flag out).
Proof.
  intros Ho. apply combined_filter_map_Ok in Ho as (b & cs & cc & r & _ & ->).
  unfold is_accepted, accepted_flag, getitem.
  rewrite (output_lookup_stats _ _ _ _ (diagnostics_accepted _ _ _ _ _)).
  reflexivity.
Qed.

Lemma accepted_flag_output `{Collaborators} (example : pydict)
  (args : FilteringArguments) (out : pydict) :
  combined_filter_map example args = Ok out ->
  accepted_flag out = true ↔ out !! "accepted" = Some (VInt 1).
Proof.
  intros Ho. apply combined_filter_map_Ok in Ho as (b & cs & cc & r & _ & ->).
  unfold accepted_flag.
  rewrite (output_lookup_stats _ _ _ _ (diagnostics_accepted _ _ _ _ _)).
  destruct (basic_passes b && negb cs && negb cc); split;
    try reflexivity; discriminate.
Qed.

(** [dataset.map]: the pass returns exactly when the function returns
    on every row, and then holds the updated rows in their order. *)
Lemma map_rows_Ok (f : pydict -> result pydict) (l l' : list pydict) :
  map_rows f l = Ok l' ↔
  Forall2 (fun r r' => ∃ o, f r = Ok o ∧ r' = o ∪ r) l l'.
Proof.
  revert l'. induction l as [|r l IH]; intros l'; simpl.
  - split.
    + intros [= <-]. constructor.
    + intros Hl. inversion Hl. reflexivity.
  - split.
    + intros Hm. apply bind_Ok in Hm as (o & Ho & Hm).
      apply bind_Ok in Hm as (l'' & Hl & [= <-]).
      constructor; [eauto | apply IH, Hl].
    + intros Hl. inversion Hl as [|? r' ? l'' (o & Ho & ->) Hl'']; subst.
      rewrite Ho. simpl. apply IH in Hl''. rewrite Hl''. reflexivity.
Qed.

Lemma map_rows_combined_filter_map `{Collaborators}
  (args : FilteringArguments) (l outs : list pydict) :
  map_rows (fun example => combined_filter_map example args) l = Ok outs ↔
  Forall2 (fun example out => combined_filter_map example args = Ok out) l outs.
Proof.
  rewrite map_rows_Ok. split; intros Hl.
  - induction Hl as [|r r' l l' (o & Ho & ->) _ IH]; constructor; [|exact IH].
    rewrite (combined_filter_map_updates _ _ _ Ho). exact Ho.
  - induction Hl as [|r o l l' Ho _ IH]; constructor; [|exact IH].
    exists o. split; [exact Ho|].
    symmetry. apply (combined_filter_map_updates _ _ _ Ho).
Qed.

(** [dataset.filter] keeps the rows on which the predicate is true, in
    their order. *)
Lemma filter_rows_Ok (p : pydict -> result bool) (q : pydict -> bool)
  (l : list pydict) :
  Forall (fun r => p r = Ok (q r)) l ->
  filter_rows p l = Ok (List.filter q l).
Proof.
  induction 1 as [|r l Hr _ IH]; simpl; [reflexivity|].
  rewrite Hr. simpl. rewrite IH. simpl. reflexivity.
Qed.

(** ** The written batch *)

Lemma lacks_false (k : string) (xs : list pydict) :
  lacks k xs = false ↔ Forall (fun x : pydict => is_Some (x !! k)) xs.
Proof.
  unfold lacks. induction xs as [|x xs IH]; simpl.
  - split; [constructor | reflexivity].
  - rewrite orb_false_iff, IH, Forall_cons.
    destruct (x !! k) as [v|]; split.
    + intros [_ Hxs]. eauto.
    + intros [_ Hxs]. auto.
    + intros [[=] _].
    + intros [[v [=]] _].
Qed.


(** The batch is written exactly when it is complete; otherwise the
    writer raises [KeyError]. *)
Lemma write_batch_Ok (order : list string) (rs xs l : list pydict) :
  length rs = length xs ->
  write_batch order rs xs = Ok l ↔ batch_complete rs xs ∧ l = written rs xs.
Proof.
  intros Hlen. unfold write_batch, batch_complete.
  destruct rs as [|r0 rs'], xs as [|x0 xs']; try discriminate Hlen.
  { split; [intros [= <-]; auto | intros [_ ->]; reflexivity]. }
  destruct (List.find _ _) as [k|] eqn:Hfind.
  - split; [discriminate|]. intros [Hc _]. exfalso.
    apply find_some in Hfind as (_ & Hk).
    apply andb_true_iff in Hk as (Hadd & Hlack).
    unfold is_added in Hadd.
    destruct (r0 !! k) eqn:Hr; [discriminate Hadd|].
    destruct (x0 !! k) as [v|] eqn:Hx; [|discriminate Hadd].
    assert (Hall : Forall (fun x : pydict => is_Some (x !! k)) (x0 :: xs'))
      by (apply Hc; [exact Hr | rewrite Hx; eauto]).
    apply lacks_false in Hall. congruence.
  - split; [|intros [_ ->]; reflexivity].
    intros [= <-]. split; [|reflexivity].
    intros k Hr [v Hx]. apply lacks_false.
    assert (Hin : In k (order ++ elements (dom x0))).
    { apply in_or_app. right. apply list_elem_of_In, elem_of_elements.
      apply elem_of_dom. eauto. }
    pose proof (find_none _ _ Hfind k Hin) as Hk. cbv beta in Hk.
    unfold is_added in Hk. rewrite Hr, Hx in Hk.
    apply andb_false_iff in Hk as [[=] | Hk]. exact Hk.
Qed.

(** A batch of rows that all hold the same fields is complete. *)
Lemma same_fields_complete (rs xs : list pydict) :
  (∀ x1 x2 : pydict, x1 ∈ xs -> x2 ∈ xs -> dom x1 = dom x2) ->
  batch_complete rs xs.
Proof.
  intros Hsame. unfold batch_complete.
  destruct rs as [|r0 rs'], xs as [|x0 xs']; try exact I.
  intros k _ Hk. apply Forall_forall. intros x Hx.
  apply elem_of_dom. rewrite (Hsame x x0 Hx (list_elem_of_here _ _)).
  apply elem_of_dom, Hk.
Qed.


Lemma kept_fields_lookup (first r x : pydict) (k : string) :
  is_Some (r !! k) ∨ is_Some (first !! k) ∨ x !! k = None ->
  kept_fields first r x !! k = x !! k.
Proof.
  intros Hk. unfold kept_fields. destruct (x !! k) as [v|] eqn:Hx.
  - apply map_lookup_filter_Some_2; [exact Hx|]. simpl.
    destruct Hk as [Hr | [Hf | [=]]]; [left | right]; apply elem_of_dom;
      assumption.
  - apply map_lookup_filter_None_2. left. exact Hx.
Qed.

Lemma kept_fields_all (first r x : pydict) :
  (∀ k, is_Some (x !! k) -> is_Some (r !! k) ∨ is_Some (first !! k)) ->
  kept_fields first r x = x.
Proof.
  intros Hall. unfold kept_fields. apply map_filter_id.
  intros k v Hx. simpl.
  destruct (Hall k) as [Hr | Hf]; [eauto | left | right]; apply elem_of_dom;
    assumption.
Qed.

(** What is written of an output of the evaluator holds its decision,
    its size, its stars and its ratio, whatever the first row. *)
Lemma kept_fields_output `{Collaborators} (args : FilteringArguments)
  (r0 first r out : pydict) :
  combined_filter_map r0 args = Ok first ->
  combined_filter_map r args = Ok out ->
  same_record out (kept_fields first r out).
Proof.
  intros Hfirst Hout.
  apply combined_filter_map_Ok in Hfirst as (b0 & cs0 & cc0 & x0 & _ & ->).
  pose proof (combined_filter_map_size _ _ _ Hout) as Hsize.
  unfold same_record. repeat split.
  - apply kept_fields_lookup. right. left.
    rewrite (output_lookup_stats _ _ _ _ (diagnostics_accepted _ _ _ _ _)).
    eauto.
  - apply kept_fields_lookup. rewrite Hsize.
    destruct (r !! "size"); [left; eauto | right; right; reflexivity].
  - apply kept_fields_lookup. right. left.
    rewrite (output_lookup_stats _ _ _ _ (diagnostics_stars _ _ _ _ _)).
    eauto.
  - apply kept_fields_lookup. right. left.
    rewrite (output_lookup_stats _ _ _ _ (diagnostics_nl_ratio _ _ _ _ _)).
    eauto.
Qed.

Lemma written_outputs `{Collaborators} (args : FilteringArguments)
  (rs outs : list pydict) :
  Forall2 (fun example out => combined_filter_map example args = Ok out)
    rs outs ->
  Forall2 same_record outs (written rs outs).
Proof.
  intros Houts. unfold written.
  destruct Houts as [|r0 first rs' outs' Hfirst Hrest]; [constructor|].
  assert (Hall : Forall2
    (fun example out => combined_filter_map example args = Ok out)
    (r0 :: rs') (first :: outs')) by (constructor; assumption).
  revert Hall. generalize (r0 :: rs') (first :: outs').
  induction 1 as [|r o l l' Ho _ IH]; simpl; constructor; [|exact IH].
  apply (kept_fields_output args r0 first r o Hfirst Ho).
Qed.

Lemma same_record_flag (out row : pydict) :
  same_record out row -> accepted_flag row = accepted_flag out.
Proof. intros (Ha & _). unfold accepted_flag. rewrite Ha. reflexivity. Qed.

Lemma filter_rows_written `{Collaborators} (args : FilteringArguments)
  (rs outs : list pydict) :
  Forall2 (fun example out => combined_filter_map example args = Ok out)
    rs outs ->
  filter_rows is_accepted (written rs outs) =
  Ok (List.filter accepted_flag (written rs outs)).
Proof.
  intros Houts. apply filter_rows_Ok.
  pose proof (written_outputs _ _ _ Houts) as Hw.
  assert (Hacc : Forall (fun out : pydict => is_Some (out !! "accepted")) outs).
  { clear Hw. induction Houts as [|r o l l' Ho _ IH]; constructor; [|exact IH].
    apply combined_filter_map_Ok in Ho as (b & cs & cc & x & _ & ->).
    rewrite (output_lookup_stats _ _ _ _ (diagnostics_accepted _ _ _ _ _)).
    eauto. }
  clear Houts. induction Hw as [|o x l l' (Ha & _) _ IH]; [constructor|].
  inversion Hacc as [|? ? [v Hv] Hacc']; subst.
  constructor; [|apply IH, Hacc'].
  unfold is_accepted, accepted_flag, getitem. rewrite Ha, Hv. reflexivity.
Qed.

(** An accepted output holds no tag of the evaluator: it is written as
    it is, whatever the first row. *)
Lemma kept_fields_accepted `{Collaborators} (args : FilteringArguments)
  (r0 first r out : pydict) :
  combined_filter_map r0 args = Ok first ->
  combined_filter_map r args = Ok out ->
  accepted_flag out = true ->
  kept_fields first r out = out.
Proof.
  intros Hfirst Hout Hflag.
  apply (accepted_flag_output _ _ _ Hout) in Hflag.
  apply combined_filter_map_Ok in Hfirst as (b0 & cs0 & cc0 & x0 & _ & ->).
  apply combined_filter_map_Ok in Hout as (b & cs & cc & x & _ & ->).
  rewrite (output_lookup_stats _ _ _ _ (diagnostics_accepted _ _ _ _ _))
    in Hflag.
  assert (Hb : basic_passes b = true ∧ cs = false ∧ cc = false).
  { destruct (basic_passes b), cs, cc; try discriminate Hflag; auto. }
  destruct Hb as (Hb & -> & ->).
  assert (Htag : basic_tag b = None) by (destruct b; try discriminate Hb;
                                         reflexivity).
  apply kept_fields_all. intros k Hk.
  apply lookup_union_is_Some in Hk as [Hk | Hk]; [right | left; exact Hk].
  unfold diagnostics in Hk. rewrite Htag in Hk. simpl in Hk.
  apply lookup_insert_is_Some in Hk as [<- | [_ Hk]].
  { rewrite (output_lookup_stats _ _ _ _ (diagnostics_accepted _ _ _ _ _)).
    eauto. }
  apply lookup_insert_is_Some in Hk as [<- | [_ Hk]].
  { rewrite (output_lookup_stats _ _ _ _ (diagnostics_nl_ratio _ _ _ _ _)).
    eauto. }
  apply lookup_insert_is_Some in Hk as [<- | [_ Hk]].
  { rewrite (output_lookup_stats _ _ _ _ (diagnostics_stars _ _ _ _ _)).
    eauto. }
  rewrite lookup_empty in Hk. destruct Hk as [v [=]].
Qed.

(** The final filter keeps the accepted outputs themselves. *)
Lemma filter_written_accepted `{Collaborators} (args : FilteringArguments)
  (rs outs : list pydict) :
  Forall2 (fun example out => combined_filter_map example args = Ok out)
    rs outs ->
  List.filter accepted_flag (written rs outs) = List.filter accepted_flag outs.
Proof.
  intros Houts. unfold written.
  destruct Houts as [|r0 first rs' outs' Hfirst Hrest]; [reflexivity|].
  assert (Hall : Forall2
    (fun example out => combined_filter_map example args = Ok out)
    (r0 :: rs') (first :: outs')) by (constructor; assumption).
  revert Hall. generalize (r0 :: rs') (first :: outs').
  induction 1 as [|r o l l' Ho _ IH]; [reflexivity|].
  change (zip_with (kept_fields first) (r :: l) (o :: l'))
    with (kept_fields first r o :: zip_with (kept_fields first) l l').
  change (List.filter accepted_flag (?x :: ?l0))
    with (if accepted_flag x then x :: List.filter accepted_flag l0
          else List.filter accepted_flag l0).
  simpl List.filter.
  rewrite (same_record_flag _ _ (kept_fields_output args r0 first r o Hfirst Ho)).
  destruct (accepted_flag o) eqn:Hflag; [|exact IH].
  rewrite (kept_fields_accepted args r0 first r o Hfirst Ho Hflag), IH.
  reflexivity.
Qed.

(** ** The pass *)

Lemma updated_before_raise (f : pydict -> result pydict)
  (before after done : list pydict) (r : pydict) (e : exn) :
  map_rows f before = Ok done ->
  f r = Raise e ->
  map_rows f (before ++ r :: after) = Raise e ∧
  updated_before f (before ++ r :: after) = done ∧
  length done = length before.
Proof.
  revert done. induction before as [|x l IH]; intros done Hb Hr; simpl in *.
  - injection Hb as <-. rewrite Hr. auto.
  - apply bind_Ok in Hb as (o & Ho & Hb).
    apply bind_Ok in Hb as (l' & Hl & [= <-]).
    destruct (IH _ Hl Hr) as (Hm & Hu & Hlen).
    rewrite Ho. simpl. rewrite Hm, Hu. simpl. auto.
Qed.

(** The pass on a corpus whose record [r] makes [f] raise: the rows
    before [r] are written, and then the exception is raised. *)
Lemma ds_map_raise (order : list string) (f : pydict -> result pydict)
  (ds : Dataset) (before after done : list pydict) (r : pydict) (e : exn) :
  rows ds = (before ++ r :: after)%list ->
  map_rows f before = Ok done ->
  f r = Raise e ->
  ds_map order f ds = (write_batch order before done ≫= fun _ => Raise e).
Proof.
  intros Hrows Hb Hr. unfold ds_map. rewrite Hrows.
  destruct (updated_before_raise f before after done r e Hb Hr)
    as (-> & -> & Hlen).
  cbv zeta. rewrite Hlen, take_app_length. reflexivity.
Qed.

(** The pass returns exactly when [f] returns on every row and the
    batch is written. *)
Lemma ds_map_Ok (order : list string) (f : pydict -> result pydict)
  (ds mapped : Dataset) :
  ds_map order f ds = Ok mapped ↔
  ∃ l, map_rows f (rows ds) = Ok l ∧
       batch_complete (rows ds) l ∧
       mapped = mkDataset (column_names ds ∪ ⋃ (dom <$> written (rows ds) l))
                  (written (rows ds) l).
Proof.
  unfold ds_map. destruct (map_rows f (rows ds)) as [l|e] eqn:Hmap.
  - assert (Hlen : length (rows ds) = length l).
    { apply map_rows_Ok in Hmap. apply (Forall2_length _ _ _ Hmap). }
    split.
    + intros Hw. apply bind_Ok in Hw as (l' & Hw & [= <-]).
      apply write_batch_Ok in Hw as (Hc & ->); [|exact Hlen].
      exists l. auto.
    + intros (l' & [= <-] & Hc & ->).
      assert (Hw : write_batch order (rows ds) l = Ok (written (rows ds) l))
        by (apply write_batch_Ok; auto).
      rewrite Hw. reflexivity.
  - split.
    + cbv zeta. destruct (write_batch _ _ _); discriminate.
    + intros (l & [=] & _).
Qed.

(** One step of a run: a computation without effect, a logged line. *)
Lemma M_bind_lift `{Collaborators} {A B : Type} (r : result A) (f : A -> M B)
  (w : world) :
  (lift r ≫= f) w =
  match r with
  | Ok a => f a w
  | Raise e => (Raise e, w)
  end.
Proof. destruct r; reflexivity. Qed.

Lemma M_bind_log `{Collaborators} {B : Type} (l : level) (t : string)
  (fs : list value) (f : unit -> M B) (w : world) :
  (log_at l t fs ≫= f) w = f tt (logged w [mkLog l t fs]).
Proof. reflexivity. Qed.

(** The stage returns exactly when each of its computations does, and
    then it has logged the values it computed. *)
Lemma filter_dataset_with_stats_Ok `{Collaborators} (ds : Dataset)
  (args : FilteringArguments) (w w' : world) (fds : Dataset) :
  filter_dataset_with_stats ds args w = (Ok fds, w') ↔
  ∃ outs igb fgb rp sp,
    size_gb ds = Ok igb ∧
    Forall2 (fun example out => combined_filter_map example args = Ok out)
      (rows ds) outs ∧
    batch_complete (rows ds) outs ∧
    fds = mkDataset (column_names ds ∪ ⋃ (dom <$> written (rows ds) outs))
            (List.filter accepted_flag (written (rows ds) outs)) ∧
    size_gb fds = Ok fgb ∧
    pct_removed (VInt (ds_len ds)) (VInt (ds_len fds)) = Ok rp ∧
    pct_removed igb fgb = Ok sp ∧
    w' = logged w
           (parameters_log args ++
            statistics_log (VInt (ds_len ds)) igb (VInt (ds_len fds)) fgb rp sp).
Proof.
  unfold filter_dataset_with_stats, logger_info.
  rewrite M_bind_lift.
  destruct (size_gb ds) as [igb|e] eqn:Higb.
  2: { split; [discriminate | intros (? & ? & ? & ? & ? & [=] & _)]. }
  rewrite !M_bind_log, !logged_logged. simpl app.
  rewrite M_bind_lift. unfold ds_map at 1.
  destruct (map_rows _ (rows ds)) as [outs|e] eqn:Hmap; simpl.
  2: { split; [destruct (write_batch _ _ _); discriminate|].
       intros (outs & ? & ? & ? & ? & _ & Hl & _).
       apply map_rows_combined_filter_map in Hl. congruence. }
  apply map_rows_combined_filter_map in Hmap.
  assert (Houts : ∀ outs', Forall2
    (fun example out => combined_filter_map example args = Ok out)
    (rows ds) outs' -> outs' = outs).
  { intros outs' Hl. apply map_rows_combined_filter_map in Hl, Hmap.
    congruence. }
  pose proof (Forall2_length _ _ _ Hmap) as Hlen.
  destruct (write_batch stats_order (rows ds) outs) as [l|e] eqn:Hw; simpl.
  2: { split; [discriminate|].
       intros (outs' & ? & ? & ? & ? & _ & Hl & Hc & _).
       rewrite (Houts _ Hl) in Hc.
       assert (Hok : write_batch stats_order (rows ds) outs =
                     Ok (written (rows ds) outs))
         by (apply write_batch_Ok; auto).
       congruence. }
  apply write_batch_Ok in Hw as (Hc & ->); [|exact Hlen].
  rewrite M_bind_lift. unfold ds_filter at 1. simpl rows.
  rewrite (filter_rows_written _ _ _ Hmap). simpl.
  set (fds0 := mkDataset (column_names ds ∪ ⋃ (dom <$> written (rows ds) outs))
                 (List.filter accepted_flag (written (rows ds) outs))).
  rewrite M_bind_lift.
  destruct (size_gb fds0) as [fgb|e] eqn:Hfgb.
  2: { split; [discriminate|].
       intros (outs' & ? & ? & ? & ? & _ & Hl & _ & -> & Hf & _).
       rewrite (Houts _ Hl) in Hf. fold fds0 in Hf. congruence. }
  rewrite M_bind_lift.
  destruct (pct_removed (VInt (ds_len ds)) (VInt (ds_len fds0))) as [rp|e] eqn:Hrp.
  2: { split; [discriminate|].
       intros (outs' & ? & ? & ? & ? & _ & Hl & _ & -> & _ & Hf & _).
       rewrite (Houts _ Hl) in Hf. fold fds0 in Hf. congruence. }
  rewrite M_bind_lift.
  destruct (pct_removed igb fgb) as [sp|e] eqn:Hsp.
  2: { split; [discriminate|].
       intros (outs' & igb' & fgb' & ? & ? & [= <-] & Hl & _ & -> & Hf & _ & Hs & _).
       rewrite (Houts _ Hl) in Hf. fold fds0 in Hf. congruence. }
  rewrite !M_bind_log, !logged_logged. simpl app.
  split.
  - intros [= <- <-]. exists outs, igb, fgb, rp, sp. auto 10.
  - intros (outs' & igb' & fgb' & rp' & sp' & [= <-] & Hl & _ & -> & Hf & Hr & Hs & ->).
    rewrite (Houts _ Hl) in *. fold fds0 in Hf, Hr |- *.
    replace fgb' with fgb in * by congruence.
    replace rp' with rp by congruence.
    replace sp' with sp by congruence.
    reflexivity.
Qed.

Lemma size_gb_column (ds : Dataset) :
  "size" ∈ column_names ds ->
  size_gb ds =
  py_sum (sizes_of (rows ds)) ≫= fun total => py_truediv total (VFloat f_1e9).
Proof.
  intros Hc. unfold size_gb, ds_column. rewrite decide_True by exact Hc.
  reflexivity.
Qed.

Lemma size_gb_Ok (ds : Dataset) (gb : value) :
  size_gb ds = Ok gb ↔
  "size" ∈ column_names ds ∧
  ∃ total, py_sum (sizes_of (rows ds)) = Ok total ∧
           py_truediv total (VFloat f_1e9) = Ok gb.
Proof.
  unfold size_gb, ds_column.
  destruct (decide ("size" ∈ column_names ds)) as [Hc|Hc]; simpl.
  - rewrite bind_Ok. fold (sizes_of (rows ds)). tauto.
  - split; [discriminate | tauto].
Qed.


(** ** Division by zero *)

(** The numbers equal to [0]: the integer and the two float zeros. *)
Lemma py_eq_zero (a : value) :
  py_eq a (VInt 0) = true ->
  a = VInt 0 ∨ ∃ s, a = VFloat (S754_zero s).
Proof.
  destruct a as [|z|f|s]; try discriminate.
  - unfold py_eq, py_compare. simpl.
    rewrite Z.sub_diag, !Z.mul_1_r.
    destruct (Z.compare_spec z 0); try discriminate. subst. auto.
  - destruct f as [s|s| |s m e].
    + eauto.
    + destruct s; discriminate.
    + discriminate.
    + unfold py_eq, py_compare. simpl. rewrite Z.mul_0_l.
      destruct (Z.compare_spec (cond_Zopp s (Z.pos m) * 2 ^ (e - e `min` 0)) 0)
        as [Hz| |]; try discriminate.
      exfalso. apply Z.mul_eq_0 in Hz as [Hz | Hz].
      * destruct s; discriminate Hz.
      * apply Z.pow_nonzero in Hz; [exact Hz | discriminate | lia].
Qed.

(** A division by a zero raises, whatever the dividend. *)
Lemma py_truediv_by_zero (p a v : value) :
  py_eq a (VInt 0) = true -> py_truediv p a = Ok v -> False.
Proof.
  intros Hz. apply py_eq_zero in Hz as [-> | (s & ->)].
  - destruct p as [|x|f|t]; discriminate.
  - destruct p as [|x|f|t]; try discriminate.
    simpl. destruct (float_of_Z x); discriminate.
Qed.

Lemma pct_removed_of_zero (a b v : value) :
  py_eq a (VInt 0) = true -> pct_removed a b = Ok v -> False.
Proof.
  intros Hz Hp. unfold pct_removed in Hp.
  apply bind_Ok in Hp as (d & _ & Hp).
  apply bind_Ok in Hp as (p & _ & Hp).
  apply (py_truediv_by_zero _ _ _ Hz Hp).
Qed.

(** A zero total is a zero number of gigabytes. *)
Lemma gigabytes_of_zero (total gb : value) :
  py_eq total (VInt 0) = true ->
  py_truediv total (VFloat f_1e9) = Ok gb ->
  py_eq gb (VInt 0) = true.
Proof.
  intros Hz. apply py_eq_zero in Hz as [-> | (s & ->)].
  - intros [= <-]. reflexivity.
  - intros [= <-]. reflexivity.
Qed.

(** The sum of integers is their integer sum. *)
Lemma py_sum_from (l : list value) (acc : Z) :
  Forall (fun v => ∃ z, v = VInt z ∧ 0 <= z) l ->
  ∃ z, foldl (fun acc x => a ← acc; py_add a x) (Ok (VInt acc)) l = Ok (VInt z) ∧
       acc <= z.
Proof.
  intros Hl. revert acc.
  induction Hl as [|v l (z & -> & Hz) _ IH]; intros acc; simpl.
  - exists acc. split; [reflexivity | lia].
  - destruct (IH (acc + z)) as (t & Ht & Hle).
    exists t. split; [exact Ht | lia].
Qed.

Lemma py_sum_nonneg (l : list value) :
  Forall (fun v => ∃ z, v = VInt z ∧ 0 <= z) l ->
  ∃ z, py_sum l = Ok (VInt z) ∧ 0 <= z.
Proof. apply py_sum_from. Qed.

(** C10: the divisions of the statistics are not guarded.  On an empty
    corpus the stage never returns, and when the corpus has a [size]
    column what it raises is the division by [initial_count]; a run
    that returns had at least one record and a total of bytes different
    from zero, that is a positive one when the sizes are non-negative
    integers. *)
Theorem empty_corpus_has_no_statistics `{Collaborators} (ds : Dataset)
  (args : FilteringArguments) (w : world) :
  (rows ds = [] ->
   ∀ fds, (filter_dataset_with_stats ds args w).1 ≠ Ok fds) ∧
  (rows ds = [] -> "size" ∈ column_names ds ->
   (filter_dataset_with_stats ds args w).1 = Raise ZeroDivisionError) ∧
  (∀ fds, (filter_dataset_with_stats ds args w).1 = Ok fds ->
   0 < ds_len ds ∧
   ∃ initial_bytes,
     py_sum (sizes_of (rows ds)) = Ok initial_bytes ∧
     py_eq initial_bytes (VInt 0) = false ∧
     (Forall (fun v => ∃ z, v = VInt z ∧ 0 <= z) (sizes_of (rows ds)) ->
      ∃ z, initial_bytes = VInt z ∧ 0 < z)).
Proof.
  assert (Hret : ∀ fds, (filter_dataset_with_stats ds args w).1 = Ok fds ->
    0 < ds_len ds ∧
    ∃ initial_bytes,
      py_sum (sizes_of (rows ds)) = Ok initial_bytes ∧
      py_eq initial_bytes (VInt 0) = false ∧
      (Forall (fun v => ∃ z, v = VInt z ∧ 0 <= z) (sizes_of (rows ds)) ->
       ∃ z, initial_bytes = VInt z ∧ 0 < z)).
  { intros fds Hrun.
    destruct (filter_dataset_with_stats ds args w) as [r w'] eqn:Hf.
    simpl in Hrun. subst r.
    apply filter_dataset_with_stats_Ok in Hf
      as (outs & igb & fgb & rp & sp & Higb & _ & _ & _ & _ & Hrp & Hsp & _).
    apply size_gb_Ok in Higb as (_ & ib & Hib & Higb).
    split.
    - destruct (Z.eq_dec (ds_len ds) 0) as [Hz|Hz].
      + exfalso. rewrite Hz in Hrp.
        apply (pct_removed_of_zero (VInt 0) _ _ eq_refl Hrp).
      + unfold ds_len in *. lia.
    - exists ib. split; [exact Hib|].
      assert (Hnz : py_eq ib (VInt 0) = false).
      { destruct (py_eq ib (VInt 0)) eqn:Hz; [|reflexivity].
        exfalso. apply (pct_removed_of_zero _ _ _ (gigabytes_of_zero _ _ Hz Higb) Hsp). }
      split; [exact Hnz|].
      intros Hpos. apply py_sum_nonneg in Hpos as (z & Hz & Hle).
      exists z. rewrite Hz in Hib. injection Hib as <-.
      split; [reflexivity|].
      destruct (Z.eq_dec z 0) as [-> | Hne]; [discriminate Hnz | lia]. }
  split; [|split; [|exact Hret]].
  - intros Hrows fds Hrun. apply Hret in Hrun as (Hlen & _).
    unfold ds_len in Hlen. rewrite Hrows in Hlen. simpl in Hlen. lia.
  - intros Hrows Hc.
    unfold filter_dataset_with_stats, logger_info.
    rewrite M_bind_lift, (size_gb_column _ Hc), Hrows. simpl.
    rewrite !M_bind_log, M_bind_lift.
    unfold ds_map. rewrite Hrows. simpl.
    rewrite M_bind_lift. unfold ds_filter. simpl.
    rewrite M_bind_lift, size_gb_column by (simpl; apply elem_of_union_l, Hc).
    simpl. rewrite M_bind_lift. unfold ds_len. rewrite Hrows. reflexivity.
Qed.


(* ===================================================================== *)
(** * Persistence *)
(* ===================================================================== *)

Lemma stream_to_disk_exists `{Collaborators} (fds : Dataset)
  (args : FilteringArguments) (w : world) (s' : storage) :
  save_manual_shards fds (hub_username args) (remote_repo args)
    (out_path args) (subset args) (w_store w) = (Raise FileExistsError, s') ->
  stream_to_disk fds args w =
  (Ok tt, mkWorld _ (w_log w ++ skipped_log args) s').
Proof.
  intros Hsave.
  unfold stream_to_disk, logger_info, logger_warning.
  rewrite M_bind_log.
  unfold try_except_FileExistsError, call_save_manual_shards.
  unfold mbind at 1, M_bind at 1. simpl w_store. rewrite Hsave.
  unfold log_at, logged. simpl. rewrite <- app_assoc. reflexivity.
Qed.

(** C7: when the writer signals that the destination exists, the
    persistence step does not raise; it leaves the storage as the writer
    left it, logs a warning, which is the outcome [SkippedExisting], and
    the script goes on to its last line and ends without an exception.
    Datasets are values: the accepted corpus is the one the stage
    returned. *)
Theorem existing_destination_is_skipped `{Collaborators}
  (args : FilteringArguments) (w0 w1 w2 : world) (ds0 ds1 fds : Dataset)
  (s' : storage) :
  load_dataset (dataset_name args) (split args) (subset args)
    (num_workers args) = Ok ds0 ->
  add_size_column ds0 (logged w0 (loading_log args)) = (Ok ds1, w1) ->
  filter_dataset_with_stats ds1 args w1 = (Ok fds, w2) ->
  save_manual_shards fds (hub_username args) (remote_repo args)
    (out_path args) (subset args) (w_store w2) = (Raise FileExistsError, s') ->
  stream_to_disk fds args w2 =
    (Ok tt, mkWorld _ (w_log w2 ++ skipped_log args) s') ∧
  last (skipped_log args) ≫= outcome_of = Some SkippedExisting ∧
  main args w0 =
    (Ok tt, mkWorld _ (w_log w2 ++ skipped_log args ++ [completed_line]) s').
Proof.
  intros Hload Hsize Hstage Hsave.
  pose proof (stream_to_disk_exists _ _ _ _ Hsave) as Hstream.
  split; [exact Hstream | split; [reflexivity|]].
  unfold main, logger_info.
  rewrite !M_bind_log, logged_logged, M_bind_lift, Hload.
  rewrite !M_bind_log, !logged_logged. simpl app.
  unfold mbind at 1, M_bind at 1.
  change (logged w0 _) with (logged w0 (loading_log args)). rewrite Hsize.
  unfold mbind at 1, M_bind at 1. rewrite Hstage.
  unfold mbind at 1, M_bind at 1. rewrite Hstream.
  unfold log_at, logged. simpl. rewrite <- app_assoc. reflexivity.
Qed.

(* ===================================================================== *)
(** * The size column *)
(* ===================================================================== *)

Lemma utf8_len_ascii (s : pystr) :
  Forall (fun c => (c < 128)%N) s -> utf8_len s = length s.
Proof.
  induction 1 as [|c s Hc _ IH]; [reflexivity|].
  change (utf8_len (c :: s)) with (utf8_width c + utf8_len s)%nat.
  rewrite IH. unfold utf8_width.
  apply N.ltb_lt in Hc. rewrite Hc. reflexivity.
Qed.

Lemma map_rows_size_of_content (l : list pydict) (contents : list pystr) :
  Forall2 (fun example s => example !! "content" = Some (VStr s)) l contents ->
  map_rows size_of_content l = Ok (zip_with sized l contents).
Proof.
  induction 1 as [|r s l ss Hr _ IH]; [reflexivity|].
  change (map_rows size_of_content (r :: l)) with
    (size_of_content r ≫= fun o =>
     map_rows size_of_content l ≫= fun l'' => Ok ((o ∪ r) :: l'')).
  assert (Ho : size_of_content r = Ok {["size" := VInt (Z.of_nat (length s))]}).
  { unfold size_of_content, getitem. rewrite Hr. reflexivity. }
  rewrite Ho, IH. simpl. unfold sized.
  rewrite <- insert_union_singleton_l. reflexivity.
Qed.

(** The sized rows all hold a size, so the batch is written as it
    is. *)
Lemma sized_all_kept (first : pydict) (l : list pydict)
  (contents : list pystr) :
  is_Some (first !! "size") ->
  zip_with (kept_fields first) l (zip_with sized l contents) =
  zip_with sized l contents.
Proof.
  intros Hfirst. revert contents.
  induction l as [|r l IH]; intros [|s ss]; try reflexivity.
  simpl. rewrite IH. f_equal.
  apply kept_fields_all. intros k Hk. unfold sized in Hk.
  apply lookup_insert_is_Some in Hk as [<- | [_ Hk]]; auto.
Qed.

Lemma sized_all_sized (l : list pydict) (contents : list pystr) :
  Forall (fun x : pydict => is_Some (x !! "size")) (zip_with sized l contents).
Proof.
  revert contents. induction l as [|r l IH]; intros [|s ss]; try constructor.
  - unfold sized. rewrite lookup_insert_eq. eauto.
  - apply IH.
Qed.

Lemma write_batch_sized (l : list pydict) (contents : list pystr) :
  length l = length contents ->
  write_batch ["size"] l (zip_with sized l contents) =
  Ok (zip_with sized l contents).
Proof.
  intros Hlen. apply write_batch_Ok.
  { rewrite length_zip_with. lia. }
  split.
  - unfold batch_complete.
    destruct l as [|r l'], contents as [|s ss]; try exact I.
    simpl. intros k Hr Hk. unfold sized in Hk.
    apply lookup_insert_is_Some in Hk as [<- | [_ [v Hv]]]; [|congruence].
    apply (sized_all_sized (r :: l') (s :: ss)).
  - unfold written.
    destruct (zip_with sized l contents) as [|first rest] eqn:Hz;
      [reflexivity|].
    rewrite <- Hz. symmetry. apply sized_all_kept.
    pose proof (sized_all_sized l contents) as Hall. rewrite Hz in Hall.
    inversion Hall. assumption.
Qed.

(** C9 (as the code has it): the test is on the columns of the corpus.
    With a [size] column the corpus is left as it is, every size
    unchanged.  Without one, every record gets as [size] the length of
    its content, counted in characters; for a content of ASCII
    characters that is its length in bytes. *)
Theorem size_defaults_to_content_length `{Collaborators} (ds : Dataset)
  (w : world) :
  ("size" ∈ column_names ds -> add_size_column ds w = (Ok ds, w)) ∧
  ("size" ∉ column_names ds ->
   ∀ contents,
     Forall2 (fun example s => example !! "content" = Some (VStr s))
       (rows ds) contents ->
     ∃ ds',
       add_size_column ds w =
         (Ok ds', logged w [mkLog INFO "Adding text size column" []]) ∧
       rows ds' = zip_with sized (rows ds) contents ∧
       Forall (fun s =>
         Forall (fun c => (c < 128)%N) s -> length s = utf8_len s) contents).
Proof.
  unfold add_size_column. split.
  - intros Hc. rewrite decide_True by exact Hc. reflexivity.
  - intros Hc contents Hcontents. rewrite decide_False by exact Hc.
    unfold logger_info. rewrite M_bind_log.
    unfold lift, ds_map. rewrite (map_rows_size_of_content _ _ Hcontents).
    simpl.
    rewrite write_batch_sized by (apply (Forall2_length _ _ _ Hcontents)).
    simpl. eexists. split; [reflexivity|]. split; [reflexivity|].
    apply Forall_forall. intros s _ Hs. symmetry. apply utf8_len_ascii, Hs.
Qed.

(* ===================================================================== *)
(** * Runs on concrete records *)
(* ===================================================================== *)

Import Demo.

(** Close an equation between closed terms by evaluating its left-hand
    side in the virtual machine. *)
Ltac by_evaluation :=
  lazymatch goal with
  | |- ?l = ?r => vm_cast_no_check (@eq_refl _ r)
  end.

(** The evaluator accepts [tagged], whose output still holds the field
    [stars_rejected] of the record: with a record that carries a tag,
    [accepted == 1] does not mean that no tag is present. *)
(** Decide a closed proposition by evaluating its decision procedure. *)
Ltac by_decision := apply (bool_decide_unpack _); vm_compute; exact I.


Lemma accepted_despite_rejection_tag :
  ∃ out,
    @combined_filter_map strict tagged args = Ok out ∧
    ¬ (out !! "accepted" = Some (VInt 1) ↔
       ∀ t, t ∈ rejection_tags -> out !! t = None).
Proof.
  exists (output strict tagged args). split; [by_evaluation|].
  intros [Hacc _].
  assert (Htag : "stars_rejected" ∈ rejection_tags).
  { apply elem_of_rejection_tags. auto. }
  assert (Hone : output strict tagged args !! "accepted" = Some (VInt 1))
    by by_evaluation.
  specialize (Hacc Hone "stars_rejected" Htag).
  assert (Hsome : output strict tagged args !! "stars_rejected" = Some (VInt 1))
    by by_evaluation.
  rewrite Hsome in Hacc. discriminate Hacc.
Qed.

Lemma accepted_iff_no_rejection_tag_witness :
  output strict good args !! "accepted" = Some (VInt 1) ↔
  ∀ t, t ∈ rejection_tags -> output strict good args !! t = None.
Proof.
  apply (@accepted_iff_no_rejection_tag strict good args).
  - intros t Ht. apply elem_of_rejection_tags in Ht.
    unfold basic_tags in Ht. rewrite !elem_of_cons, elem_of_nil in Ht.
    destruct Ht as [[-> | [-> | [-> | []]]] | [-> | ->]]; by_evaluation.
  - by_evaluation.
Defined.

Lemma boundary_values_reject_witness :
  (output strict boundary args !! "stars_rejected" = Some (VInt 1) ∧
   output strict boundary args !! "accepted" = Some (VInt 0)) ∧
  (output strict good half_args !! "comments_rejected" = Some (VInt 1) ∧
   output strict good half_args !! "accepted" = Some (VInt 0)).
Proof.
  split.
  - apply (@boundary_values_reject strict boundary args); by_evaluation.
  - apply (@boundary_values_reject strict good half_args) with (nl_ratio := fl 1 2).
    + by_evaluation.
    + by_evaluation.
    + left. by_evaluation.
Defined.

(** The evaluator tags [doubly_tagged] with the max-line tag, and its
    output still holds the avg-line tag of the record: two basic tags
    are present. *)
Lemma two_basic_tags_on_tagged_record :
  ∃ out,
    @combined_filter_map strict doubly_tagged args = Ok out ∧
    "basic_rejected_max_line" ∈ basic_tags ∧
    "basic_rejected_avg_line" ∈ basic_tags ∧
    out !! "basic_rejected_max_line" = Some (VInt 1) ∧
    out !! "basic_rejected_avg_line" = Some (VInt 1).
Proof.
  exists (output strict doubly_tagged args).
  split; [by_evaluation|].
  unfold basic_tags.
  split; [repeat constructor|]. split; [repeat constructor|].
  split; by_evaluation.
Qed.

Lemma at_most_one_basic_tag_witness :
  (max_line_test crammed args = Ok true ∧
   avg_line_test crammed args = Ok true ∧
   alphanum_test crammed args = Ok true ∧
   output strict crammed args !! "basic_rejected_max_line" = Some (VInt 1) ∧
   output strict crammed args !! "basic_rejected_avg_line" = None ∧
   output strict crammed args !! "basic_rejected_alphanum" = None) ∧
  ((∀ t1 t2, t1 ∈ basic_tags -> t2 ∈ basic_tags ->
      is_Some (output strict crammed args !! t1) ->
      is_Some (output strict crammed args !! t2) -> t1 = t2) ∧
   (is_Some (output strict crammed args !! "basic_rejected_max_line") ↔
    max_line_test crammed args = Ok true) ∧
   (is_Some (output strict crammed args !! "basic_rejected_avg_line") ↔
    max_line_test crammed args = Ok false ∧
    avg_line_test crammed args = Ok true) ∧
   (is_Some (output strict crammed args !! "basic_rejected_alphanum") ↔
    max_line_test crammed args = Ok false ∧
    avg_line_test crammed args = Ok false ∧
    alphanum_test crammed args = Ok true)) ∧
  (max_line_test dense args = Ok false ∧
   avg_line_test dense args = Ok true ∧
   alphanum_test dense args = Ok true ∧
   output strict dense args !! "basic_rejected_max_line" = None ∧
   output strict dense args !! "basic_rejected_avg_line" = Some (VInt 1) ∧
   output strict dense args !! "basic_rejected_alphanum" = None) ∧
  ((∀ t1 t2, t1 ∈ basic_tags -> t2 ∈ basic_tags ->
      is_Some (output strict dense args !! t1) ->
      is_Some (output strict dense args !! t2) -> t1 = t2) ∧
   (is_Some (output strict dense args !! "basic_rejected_max_line") ↔
    max_line_test dense args = Ok true) ∧
   (is_Some (output strict dense args !! "basic_rejected_avg_line") ↔
    max_line_test dense args = Ok false ∧
    avg_line_test dense args = Ok true) ∧
   (is_Some (output strict dense args !! "basic_rejected_alphanum") ↔
    max_line_test dense args = Ok false ∧
    avg_line_test dense args = Ok false ∧
    alphanum_test dense args = Ok true)).
Proof.
  split; [repeat split; by_evaluation|]. split; [|split].
  - apply (@at_most_one_basic_tag strict crammed args).
    + intros t Ht. unfold basic_tags in Ht.
      rewrite !elem_of_cons, elem_of_nil in Ht.
      destruct Ht as [-> | [-> | [-> | []]]]; by_evaluation.
    + by_evaluation.
  - repeat split; by_evaluation.
  - apply (@at_most_one_basic_tag strict dense args).
    + intros t Ht. unfold basic_tags in Ht.
      rewrite !elem_of_cons, elem_of_nil in Ht.
      destruct Ht as [-> | [-> | [-> | []]]]; by_evaluation.
    + by_evaluation.
Defined.

Lemma null_stars_count_is_zero_witness :
  output strict starless args !! "stars" = Some (VInt 0) ∧
  ∃ c, py_le (VInt 0) (threshold_stars args) = Ok c ∧
       (c = true ->
        output strict starless args !! "stars_rejected" = Some (VInt 1) ∧
        output strict starless args !! "accepted" = Some (VInt 0)) ∧
       (c = false ->
        output strict starless args !! "stars_rejected" =
        starless !! "stars_rejected").
Proof.
  apply (@null_stars_count_is_zero strict starless args).
  - right. by_evaluation.
  - by_evaluation.
Defined.

Lemma stars_and_nl_ratio_always_recorded_witness :
  output strict long_line args !! "accepted" = Some (VInt 0) ∧
  output strict long_line args !! "stars" = Some (VInt 17) ∧
  ∃ content lang nl_ratio,
    long_line !! "content" = Some content ∧
    long_line !! "lang" = Some (VStr lang) ∧
    hash_ratio content (ascii_lower lang) = Ok nl_ratio ∧
    output strict long_line args !! "nl_ratio" = Some nl_ratio.
Proof.
  split; [by_evaluation|].
  apply (@stars_and_nl_ratio_always_recorded strict long_line args).
  by_evaluation.
Defined.



Lemma empty_corpus_has_no_statistics_witness :
  (@filter_dataset_with_stats strict no_records args (@fresh strict no_shelf)).1 =
  Raise ZeroDivisionError.
Proof.
  apply (@empty_corpus_has_no_statistics strict no_records args (@fresh strict no_shelf)).
  - reflexivity.
  - by_decision.
Defined.



Lemma existing_destination_is_skipped_witness :
  @stream_to_disk strict
    (kept_of (@filter_dataset_with_stats strict corpus args
                (logged (@fresh strict full_shelf) (loading_log args))))
    args
    (@filter_dataset_with_stats strict corpus args
       (logged (@fresh strict full_shelf) (loading_log args))).2 =
  (Ok tt,
   mkWorld strict
     (w_log (@filter_dataset_with_stats strict corpus args
               (logged (@fresh strict full_shelf) (loading_log args))).2
      ++ skipped_log args)
     full_shelf) ∧
  last (skipped_log args) ≫= outcome_of = Some SkippedExisting ∧
  @main strict args (@fresh strict full_shelf) =
  (Ok tt,
   mkWorld strict
     (w_log (@filter_dataset_with_stats strict corpus args
               (logged (@fresh strict full_shelf) (loading_log args))).2
      ++ skipped_log args ++ [completed_line])
     full_shelf).
Proof.
  apply (@existing_destination_is_skipped strict args (@fresh strict full_shelf)
           (logged (@fresh strict full_shelf) (loading_log args)) _ corpus corpus).
  - reflexivity.
  - by_evaluation.
  - by_evaluation.
  - by_evaluation.
Defined.

(** On a corpus without a [size] column, the record whose content is
    one accented letter gets the size [1], and the UTF-8 encoding of
    its content has two bytes. *)
Lemma size_counts_characters_not_bytes :
  ∃ ds' w' r,
    ("size" ∉ column_names unsized) ∧
    accented !! "content" = Some (VStr [233%N]) ∧
    @add_size_column strict unsized (@fresh strict no_shelf) = (Ok ds', w') ∧
    rows ds' = [r] ∧
    r !! "size" = Some (VInt 1) ∧
    utf8_len [233%N] = 2%nat.
Proof.
  exists (mkDataset {[ "content"; "lang"; "size" ]} [sized accented [233%N]]),
    (logged (@fresh strict no_shelf) [mkLog INFO "Adding text size column" []]),
    (sized accented [233%N]).
  split; [|repeat split; by_evaluation].
  intros Hin. apply (bool_decide_pack _) in Hin. vm_compute in Hin. exact Hin.
Qed.

Lemma size_defaults_to_content_length_witness :
  @add_size_column strict corpus (@fresh strict no_shelf) =
    (Ok corpus, @fresh strict no_shelf) ∧
  ∃ ds',
    @add_size_column strict unsized (@fresh strict no_shelf) =
      (Ok ds', logged (@fresh strict no_shelf)
                 [mkLog INFO "Adding text size column" []]) ∧
    rows ds' = zip_with sized (rows unsized) [[233%N]] ∧
    Forall (fun s =>
      Forall (fun c => (c < 128)%N) s -> length s = utf8_len s) [[233%N]].
Proof.
  split.
  - apply (@size_defaults_to_content_length strict corpus (@fresh strict no_shelf)).
    by_decision.
  - apply (@size_defaults_to_content_length strict unsized (@fresh strict no_shelf)).
    + intros Hin. apply (bool_decide_pack _) in Hin. vm_compute in Hin. exact Hin.
    + repeat constructor.
Defined.

(* ===================================================================== *)
(** * More on the evaluator *)
(* ===================================================================== *)

(** The diagnostics hold nothing under a key that is not theirs. *)
Lemma diagnostics_fields (example : pydict) b cs cc r (k : string) :
  is_Some (diagnostics example b cs cc r !! k) -> k ∈ diagnostic_fields.
Proof.
  intros [v Hv]. unfold diagnostic_fields, rejection_tags, basic_tags.
  unfold diagnostics in Hv.
  destruct b, cs, cc; simpl in Hv;
    repeat (apply lookup_insert_Some in Hv as [[<- _] | [_ Hv]];
            [repeat constructor|]);
    rewrite lookup_empty in Hv; discriminate Hv.
Qed.

Lemma diagnostics_other (example : pydict) b cs cc r (k : string) :
  k ∉ diagnostic_fields -> diagnostics example b cs cc r !! k = None.
Proof.
  intros Hk. apply eq_None_not_Some. intros Hs.
  apply Hk, (diagnostics_fields _ _ _ _ _ _ Hs).
Qed.

(** The diagnostics depend on the record through its stars only. *)
Lemma diagnostics_stars_only (e1 e2 : pydict) b cs cc r :
  normalized_stars e1 = normalized_stars e2 ->
  diagnostics e1 b cs cc r = diagnostics e2 b cs cc r.
Proof. unfold diagnostics. intros ->. reflexivity. Qed.

(** Two records with the same input fields get the same verdicts. *)
Lemma evaluates_agree `{Collaborators} (e1 e2 : pydict)
  (args : FilteringArguments) b cs cc r :
  (∀ k, k ∈ input_fields -> e1 !! k = e2 !! k) ->
  evaluates e1 args b cs cc r ->
  evaluates e2 args b cs cc r ∧ normalized_stars e1 = normalized_stars e2.
Proof.
  intros Hk.
  assert (H1 : e1 !! "max_line_length" = e2 !! "max_line_length")
    by (apply Hk; unfold input_fields; repeat constructor).
  assert (H2 : e1 !! "avg_line_length" = e2 !! "avg_line_length")
    by (apply Hk; unfold input_fields; repeat constructor).
  assert (H3 : e1 !! "alphanum_fraction" = e2 !! "alphanum_fraction")
    by (apply Hk; unfold input_fields; repeat constructor).
  assert (H4 : e1 !! "max_stars_count" = e2 !! "max_stars_count")
    by (apply Hk; unfold input_fields; repeat constructor).
  assert (H5 : e1 !! "content" = e2 !! "content")
    by (apply Hk; unfold input_fields; repeat constructor).
  assert (H6 : e1 !! "lang" = e2 !! "lang")
    by (apply Hk; unfold input_fields; repeat constructor).
  assert (Hs : normalized_stars e1 = normalized_stars e2)
    by (unfold normalized_stars; rewrite H4; reflexivity).
  unfold evaluates, basic_holds, max_line_test, avg_line_test, alphanum_test,
    stars_test, getitem.
  rewrite H1, H2, H3, H5, H6, Hs. auto.
Qed.

Lemma input_not_diagnostic (k : string) :
  k ∈ input_fields -> k ∉ diagnostic_fields.
Proof.
  unfold input_fields, diagnostic_fields, rejection_tags, basic_tags.
  rewrite !elem_of_cons, elem_of_nil. simpl.
  rewrite !elem_of_cons, elem_of_nil.
  intros [-> | [-> | [-> | [-> | [-> | [-> | []]]]]]] Hd;
    repeat (destruct Hd as [Hd | Hd]; [discriminate Hd|]); exact Hd.
Qed.

(** X1: the evaluator keeps every field of the record that is not a
    diagnostic field, with its value, and adds nothing but diagnostic
    fields; [stars], [nl_ratio] and [accepted] are always among the
    fields of the output. *)
Theorem record_fields_are_kept `{Collaborators} (example : pydict)
  (args : FilteringArguments) (out : pydict) :
  combined_filter_map example args = Ok out ->
  (∀ k, k ∉ diagnostic_fields -> out !! k = example !! k) ∧
  (∀ k, is_Some (example !! k) -> is_Some (out !! k)) ∧
  (∀ k, is_Some (out !! k) ->
     is_Some (example !! k) ∨ k ∈ diagnostic_fields) ∧
  is_Some (out !! "stars") ∧ is_Some (out !! "nl_ratio") ∧
  is_Some (out !! "accepted").
Proof.
  intros Hrun.
  apply combined_filter_map_Ok in Hrun as (b & cs & cc & r & _ & ->).
  split; [|split; [|split; [|split; [|split]]]].
  - intros k Hk. apply output_lookup_example, diagnostics_other, Hk.
  - intros k [x Hx]. rewrite lookup_union, Hx.
    destruct (diagnostics example b cs cc r !! k); simpl; eauto.
  - intros k Hk.
    destruct (diagnostics example b cs cc r !! k) as [v|] eqn:Hd.
    + right. apply (diagnostics_fields example b cs cc r). eauto.
    + left. rewrite (output_lookup_example _ _ _ Hd) in Hk. exact Hk.
  - rewrite (output_lookup_stats _ _ _ _ (diagnostics_stars _ _ _ _ _)). eauto.
  - rewrite (output_lookup_stats _ _ _ _ (diagnostics_nl_ratio _ _ _ _ _)). eauto.
  - rewrite (output_lookup_stats _ _ _ _ (diagnostics_accepted _ _ _ _ _)). eauto.
Qed.

(** X2: evaluating an output of the evaluator again, with the same
    arguments, returns that output: the diagnostics read no diagnostic
    field, and writing them twice is writing them once. *)
Theorem evaluation_is_idempotent `{Collaborators} (example : pydict)
  (args : FilteringArguments) (out : pydict) :
  combined_filter_map example args = Ok out ->
  combined_filter_map out args = Ok out.
Proof.
  intros Hrun.
  apply combined_filter_map_Ok in Hrun as (b & cs & cc & r & Hev & ->).
  set (d := diagnostics example b cs cc r).
  destruct (evaluates_agree example (d ∪ example) args b cs cc r) as (Hev' & Hs).
  - intros k Hk. symmetry.
    apply output_lookup_example, diagnostics_other, input_not_diagnostic, Hk.
  - exact Hev.
  - apply combined_filter_map_Ok. exists b, cs, cc, r. split; [exact Hev'|].
    rewrite <- (diagnostics_stars_only _ _ b cs cc r Hs). fold d.
    rewrite (assoc_L (∪)), (idemp_L (∪) d). reflexivity.
Qed.

(** X3: whatever fields the record carries, its output has
    [accepted == 1] exactly when the five tests are false: the three of
    the basic gate on the record, the one of the stars gate, and the one
    of the comments gate on the ratio recorded. *)
Theorem accepted_iff_every_test_fails `{Collaborators} (example : pydict)
  (args : FilteringArguments) (out : pydict) :
  combined_filter_map example args = Ok out ->
  out !! "accepted" = Some (VInt 1) ↔
  max_line_test example args = Ok false ∧
  avg_line_test example args = Ok false ∧
  alphanum_test example args = Ok false ∧
  stars_test example args = Ok false ∧
  ∃ r, out !! "nl_ratio" = Some r ∧ comments_test r args = Ok false.
Proof.
  intros Hrun.
  apply combined_filter_map_Ok in Hrun
    as (b & cs & cc & r & (Hb & Hcs & _ & Hcc) & ->).
  rewrite (output_lookup_stats _ _ _ _ (diagnostics_accepted _ _ _ _ _)).
  rewrite (output_lookup_stats _ _ _ _ (diagnostics_nl_ratio _ _ _ _ _)).
  split.
  - intros Hacc.
    assert (basic_passes b = true ∧ cs = false ∧ cc = false) as (Hp & -> & ->).
    { destruct (basic_passes b), cs, cc; simpl in Hacc;
        try discriminate Hacc; auto. }
    destruct b; try discriminate Hp. destruct Hb as (H1 & H2 & H3).
    eauto 10.
  - intros (H1 & H2 & H3 & H4 & r' & [= <-] & H5).
    rewrite Hcs in H4. injection H4 as ->.
    rewrite Hcc in H5. injection H5 as ->.
    destruct b; simpl in Hb; try reflexivity; exfalso; intuition congruence.
Qed.

(** A NaN is in no order with a number: every ordering test on it is
    false. *)
Lemma py_compare_nan (t : value) :
  is_number t -> py_compare nan t = Ok None.
Proof.
  intros [x Hx]. unfold py_compare, nan. simpl. rewrite Hx. reflexivity.
Qed.

(** X4: a NaN is never rejected.  With numbers as thresholds, a record
    whose [avg_line_length] and [alphanum_fraction] are NaN and whose
    ratio is NaN is accepted as soon as the max-line test and the stars
    test are false, and the evaluator does not tag it
    [comments_rejected]. *)
Theorem nan_is_never_rejected `{Collaborators} (example : pydict)
  (args : FilteringArguments) (out : pydict) :
  is_number (line_mean args) ->
  is_number (alpha_frac args) ->
  is_number (min_threshold_comments args) ->
  is_number (max_threshold_comments args) ->
  example !! "avg_line_length" = Some nan ->
  example !! "alphanum_fraction" = Some nan ->
  combined_filter_map example args = Ok out ->
  out !! "nl_ratio" = Some nan ->
  (out !! "accepted" = Some (VInt 1) ↔
   max_line_test example args = Ok false ∧
   stars_test example args = Ok false) ∧
  out !! "comments_rejected" = example !! "comments_rejected".
Proof.
  intros Hmean Hfrac Hmin Hmax Havg Haln Hrun Hnl.
  assert (H2 : avg_line_test example args = Ok false).
  { unfold avg_line_test, getitem, py_gt. rewrite Havg. simpl.
    rewrite (py_compare_nan _ Hmean). reflexivity. }
  assert (H3 : alphanum_test example args = Ok false).
  { unfold alphanum_test, getitem, py_lt. rewrite Haln. simpl.
    rewrite (py_compare_nan _ Hfrac). reflexivity. }
  assert (H5 : comments_test nan args = Ok false).
  { unfold comments_test, py_le, py_ge.
    rewrite (py_compare_nan _ Hmin). simpl.
    rewrite (py_compare_nan _ Hmax). reflexivity. }
  apply combined_filter_map_Ok in Hrun
    as (b & cs & cc & r & (Hb & Hcs & _ & Hcc) & ->).
  rewrite (output_lookup_stats _ _ _ _ (diagnostics_nl_ratio _ _ _ _ _)) in Hnl.
  injection Hnl as ->. rewrite H5 in Hcc. injection Hcc as <-.
  rewrite (output_lookup_stats _ _ _ _ (diagnostics_accepted _ _ _ _ _)).
  split.
  - split.
    + intros Hacc.
      assert (basic_passes b = true ∧ cs = false) as (Hp & ->).
      { destruct (basic_passes b), cs; simpl in Hacc;
          try discriminate Hacc; auto. }
      destruct b; try discriminate Hp. destruct Hb as (H1 & _). auto.
    + intros (H1 & H4). rewrite Hcs in H4. injection H4 as ->.
      destruct b; simpl in Hb; try reflexivity; exfalso; intuition congruence.
  - apply output_lookup_example, diagnostics_comments_rejected.
Qed.

(** The gates read the record at their own fields only. *)
Lemma stars_filter_agree (e1 e2 : pydict) (args : FilteringArguments)
  (st : gate_state) :
  e1 !! "max_stars_count" = e2 !! "max_stars_count" ->
  stars_filter e1 args st = stars_filter e2 args st.
Proof.
  intros Hk. unfold stars_filter, normalized_stars. rewrite Hk. reflexivity.
Qed.

Lemma comments_filter_agree `{Collaborators} (e1 e2 : pydict)
  (args : FilteringArguments) (st : gate_state) :
  e1 !! "content" = e2 !! "content" ->
  e1 !! "lang" = e2 !! "lang" ->
  comments_filter e1 args st = comments_filter e2 args st.
Proof.
  intros Hc Hl. unfold comments_filter, getitem. rewrite Hc, Hl. reflexivity.
Qed.

(** X5: the basic chain stops at its first match.  When the max-line
    test holds, the fields [avg_line_length] and [alphanum_fraction]
    are not read: a record that differs in them, or lacks them, gets the
    same diagnostics.  When it does not hold, a record without
    [avg_line_length] raises [KeyError], and so does one without
    [alphanum_fraction] when the avg-line test does not hold either. *)
Theorem basic_chain_stops_at_first_match `{Collaborators} (example : pydict)
  (args : FilteringArguments) :
  (max_line_test example args = Ok true ->
   ∀ other : pydict,
     (∀ k, k ≠ "avg_line_length" -> k ≠ "alphanum_fraction" ->
        other !! k = example !! k) ->
     combined_filter_stats other args = combined_filter_stats example args) ∧
  (max_line_test example args = Ok false ->
   example !! "avg_line_length" = None ->
   combined_filter_map example args = Raise (KeyError "avg_line_length")) ∧
  (max_line_test example args = Ok false ->
   avg_line_test example args = Ok false ->
   example !! "alphanum_fraction" = None ->
   combined_filter_map example args = Raise (KeyError "alphanum_fraction")).
Proof.
  split; [|split].
  - intros H1 other Hk.
    assert (Hb : ∀ st, basic_filters other args st = basic_filters example args st).
    { intros st. unfold basic_filters.
      unfold max_line_test in H1. apply bind_Ok in H1 as (v & Hv & Hgt).
      unfold getitem in *. rewrite (Hk "max_line_length") by discriminate.
      destruct (example !! "max_line_length"); [|discriminate Hv].
      injection Hv as ->. simpl. rewrite Hgt. reflexivity. }
    unfold combined_filter_stats. rewrite Hb.
    destruct (basic_filters example args (true, ∅)) as [st1|e]; [|reflexivity].
    simpl.
    rewrite (stars_filter_agree other example) by (apply Hk; discriminate).
    destruct (stars_filter example args st1) as [st2|e]; [|reflexivity].
    simpl.
    rewrite (comments_filter_agree other example)
      by (apply Hk; discriminate).
    reflexivity.
  - intros H1 Hnone.
    unfold combined_filter_map, combined_filter_stats, basic_filters.
    unfold max_line_test in H1. apply bind_Ok in H1 as (v & Hv & Hgt).
    rewrite Hv. simpl. rewrite Hgt. simpl.
    unfold getitem. rewrite Hnone. reflexivity.
  - intros H1 H2 Hnone.
    unfold combined_filter_map, combined_filter_stats, basic_filters.
    unfold max_line_test in H1. apply bind_Ok in H1 as (v & Hv & Hgt).
    unfold avg_line_test in H2. apply bind_Ok in H2 as (v' & Hv' & Hgt').
    rewrite Hv. simpl. rewrite Hgt. simpl.
    rewrite Hv'. simpl. rewrite Hgt'. simpl.
    unfold getitem. rewrite Hnone. reflexivity.
Qed.

(** X6: the comments gate is reached by every record the first two
    gates let through, rejected or not, and what it cannot do ends the
    evaluation: a record without [content] or without [lang] raises
    [KeyError], one whose [lang] is not a string raises
    [AttributeError], and an exception of the oracle is the exception
    of the evaluator. *)
Theorem comments_gate_errors `{Collaborators} (example : pydict)
  (args : FilteringArguments) (st1 st2 : gate_state) :
  basic_filters example args (true, ∅) = Ok st1 ->
  stars_filter example args st1 = Ok st2 ->
  (example !! "content" = None ->
   combined_filter_map example args = Raise (KeyError "content")) ∧
  (is_Some (example !! "content") -> example !! "lang" = None ->
   combined_filter_map example args = Raise (KeyError "lang")) ∧
  (∀ v, is_Some (example !! "content") -> example !! "lang" = Some v ->
     (∀ s, v ≠ VStr s) ->
     combined_filter_map example args = Raise AttributeError) ∧
  (∀ content lang e,
     example !! "content" = Some content ->
     example !! "lang" = Some (VStr lang) ->
     get_nl_ratio content (str_lower lang) = Raise e ->
     combined_filter_map example args = Raise e).
Proof.
  intros H1 H2.
  unfold combined_filter_map, combined_filter_stats.
  rewrite H1. simpl. rewrite H2. simpl.
  unfold comments_filter, getitem.
  split; [|split; [|split]].
  - intros ->. reflexivity.
  - intros [c ->] ->. reflexivity.
  - intros v [c ->] -> Hv. simpl.
    destruct v as [| | |s]; try reflexivity. destruct (Hv s eq_refl).
  - intros content lang e -> -> Hr. simpl. rewrite Hr. reflexivity.
Qed.

(* ===================================================================== *)
(** * More on the corpus stage *)
(* ===================================================================== *)

(** X7: one record on which the evaluator raises ends the stage.  When
    the byte total was computed and the records before that one were
    evaluated, with outputs that all hold the same fields, the stage
    raises the exception of that record, returns no corpus, and has
    logged its parameters and no statistics. *)
Theorem stage_stops_at_first_failure `{Collaborators} (ds : Dataset)
  (args : FilteringArguments) (w : world)
  (before after outs : list pydict) (example : pydict) (e : exn)
  (initial_gb : value) :
  size_gb ds = Ok initial_gb ->
  rows ds = (before ++ example :: after)%list ->
  Forall2 (fun r out => combined_filter_map r args = Ok out) before outs ->
  (∀ o1 o2 : pydict, o1 ∈ outs -> o2 ∈ outs -> dom o1 = dom o2) ->
  combined_filter_map example args = Raise e ->
  filter_dataset_with_stats ds args w =
  (Raise e, logged w (parameters_log args)).
Proof.
  intros Hgb Hrows Hbefore Hsame Hraise.
  unfold filter_dataset_with_stats, logger_info.
  rewrite M_bind_lift, Hgb, !M_bind_log, !logged_logged. simpl app.
  rewrite M_bind_lift.
  apply map_rows_combined_filter_map in Hbefore as Hmap.
  rewrite (ds_map_raise stats_order _ ds before after outs example e
             Hrows Hmap Hraise).
  assert (Hw : write_batch stats_order before outs = Ok (written before outs)).
  { apply write_batch_Ok; [apply (Forall2_length _ _ _ Hbefore)|].
    split; [|reflexivity].
    apply same_fields_complete, Hsame. }
  rewrite Hw. reflexivity.
Qed.

(** ** Statements that only log *)

Lemma only_logs_ret `{Collaborators} {A : Type} (a : A) :
  only_logs (mret a : M A).
Proof.
  intros w r w' [= <- <-]. split; [reflexivity|].
  exists []. rewrite app_nil_r. reflexivity.
Qed.

Lemma only_logs_lift `{Collaborators} {A : Type} (r : result A) :
  only_logs (lift r).
Proof.
  intros w r' w' [= <- <-]. split; [reflexivity|].
  exists []. rewrite app_nil_r. reflexivity.
Qed.

Lemma only_logs_log `{Collaborators} (l : level) (t : string)
  (fs : list value) :
  only_logs (log_at l t fs).
Proof.
  intros w r w' [= <- <-]. split; [reflexivity|]. simpl. eauto.
Qed.

Lemma only_logs_bind `{Collaborators} {A B : Type} (m : M A) (f : A -> M B) :
  only_logs m -> (∀ a, only_logs (f a)) -> only_logs (m ≫= f).
Proof.
  intros Hm Hf w r w' Hrun.
  unfold mbind, M_bind in Hrun.
  destruct (m w) as [[a|e] w1] eqn:Hmw.
  - destruct (Hm _ _ _ Hmw) as (Hs1 & l1 & Hl1).
    destruct (Hf a _ _ _ Hrun) as (Hs2 & l2 & Hl2).
    split; [congruence|]. exists (l1 ++ l2)%list.
    rewrite Hl2, Hl1, app_assoc. reflexivity.
  - injection Hrun as <- <-. apply (Hm _ _ _ Hmw).
Qed.

Lemma filter_dataset_with_stats_only_logs `{Collaborators} (ds : Dataset)
  (args : FilteringArguments) :
  only_logs (filter_dataset_with_stats ds args).
Proof.
  unfold filter_dataset_with_stats, logger_info.
  repeat (apply only_logs_bind;
          [first [apply only_logs_lift | apply only_logs_log] | intros ?]).
  apply only_logs_ret.
Qed.

Lemma add_size_column_only_logs `{Collaborators} (ds : Dataset) :
  only_logs (add_size_column ds).
Proof.
  unfold add_size_column, logger_info.
  destruct (decide ("size" ∈ column_names ds)).
  - apply only_logs_ret.
  - apply only_logs_bind; [apply only_logs_log | intros ?].
    apply only_logs_lift.
Qed.

(** The script up to the persistence step. *)
Lemma main_until_persistence `{Collaborators} (args : FilteringArguments)
  (w0 w1 w2 : world) (ds0 ds1 fds : Dataset) :
  load_dataset (dataset_name args) (split args) (subset args)
    (num_workers args) = Ok ds0 ->
  add_size_column ds0 (logged w0 (loading_log args)) = (Ok ds1, w1) ->
  filter_dataset_with_stats ds1 args w1 = (Ok fds, w2) ->
  main args w0 =
  (stream_to_disk fds args ≫= fun _ =>
   logger_info "=== Processing completed successfully ===" []) w2.
Proof.
  intros Hload Hsize Hstage.
  unfold main, logger_info.
  rewrite !M_bind_log, logged_logged, M_bind_lift, Hload.
  rewrite !M_bind_log, !logged_logged. simpl app.
  unfold mbind at 1, M_bind at 1.
  change (logged w0 _) with (logged w0 (loading_log args)). rewrite Hsize.
  unfold mbind at 1, M_bind at 1. rewrite Hstage. reflexivity.
Qed.

(** X8: the script leaves the storage to the writer.  When the loader,
    the size column or the stage raises, the script raises the same
    exception and the storage is as it was before the run. *)
Theorem failure_before_persistence `{Collaborators}
  (args : FilteringArguments) (w0 : world) (e : exn) :
  (load_dataset (dataset_name args) (split args) (subset args)
     (num_workers args) = Raise e ->
   (main args w0).1 = Raise e ∧ w_store (main args w0).2 = w_store w0) ∧
  (∀ ds0,
     load_dataset (dataset_name args) (split args) (subset args)
       (num_workers args) = Ok ds0 ->
     (add_size_column ds0 (logged w0 (loading_log args))).1 = Raise e ->
     (main args w0).1 = Raise e ∧ w_store (main args w0).2 = w_store w0) ∧
  (∀ ds0 ds1 w1,
     load_dataset (dataset_name args) (split args) (subset args)
       (num_workers args) = Ok ds0 ->
     add_size_column ds0 (logged w0 (loading_log args)) = (Ok ds1, w1) ->
     (filter_dataset_with_stats ds1 args w1).1 = Raise e ->
     (main args w0).1 = Raise e ∧ w_store (main args w0).2 = w_store w0).
Proof.
  split; [|split].
  - intros Hload. unfold main, logger_info.
    rewrite !M_bind_log, logged_logged, M_bind_lift, Hload. auto.
  - intros ds0 Hload Hsize.
    destruct (add_size_column ds0 (logged w0 (loading_log args)))
      as [r w1] eqn:Hrun.
    simpl in Hsize. subst r.
    assert (Hmain : main args w0 = (Raise e, w1)).
    { unfold main, logger_info.
      rewrite !M_bind_log, logged_logged, M_bind_lift, Hload.
      rewrite !M_bind_log, !logged_logged. simpl app.
      unfold mbind at 1, M_bind at 1.
      change (logged w0 _) with (logged w0 (loading_log args)).
      rewrite Hrun. reflexivity. }
    rewrite Hmain. simpl. split; [reflexivity|].
    apply add_size_column_only_logs in Hrun as (Hs & _). exact Hs.
  - intros ds0 ds1 w1 Hload Hsize Hstage.
    destruct (filter_dataset_with_stats ds1 args w1) as [r w2] eqn:Hrun.
    simpl in Hstage. subst r.
    assert (Hmain : main args w0 = (Raise e, w2)).
    { unfold main, logger_info.
      rewrite !M_bind_log, logged_logged, M_bind_lift, Hload.
      rewrite !M_bind_log, !logged_logged. simpl app.
      unfold mbind at 1, M_bind at 1.
      change (logged w0 _) with (logged w0 (loading_log args)).
      rewrite Hsize.
      unfold mbind at 1, M_bind at 1. rewrite Hrun. reflexivity. }
    rewrite Hmain. simpl. split; [reflexivity|].
    apply filter_dataset_with_stats_only_logs in Hrun as (Hs2 & _).
    apply add_size_column_only_logs in Hsize as (Hs1 & _).
    rewrite Hs2. exact Hs1.
Qed.

(** X9: when the writer returns, the persistence step logs that the
    corpus was saved, which is the outcome [Saved], the storage is the
    one the writer returned, and the script ends on its last line. *)
Theorem saved_corpus_is_reported `{Collaborators}
  (args : FilteringArguments) (w0 w1 w2 : world) (ds0 ds1 fds : Dataset)
  (s' : storage) :
  load_dataset (dataset_name args) (split args) (subset args)
    (num_workers args) = Ok ds0 ->
  add_size_column ds0 (logged w0 (loading_log args)) = (Ok ds1, w1) ->
  filter_dataset_with_stats ds1 args w1 = (Ok fds, w2) ->
  save_manual_shards fds (hub_username args) (remote_repo args)
    (out_path args) (subset args) (w_store w2) = (Ok tt, s') ->
  stream_to_disk fds args w2 =
    (Ok tt, mkWorld _ (w_log w2 ++ saved_log args) s') ∧
  last (saved_log args) ≫= outcome_of = Some Saved ∧
  main args w0 =
    (Ok tt, mkWorld _ (w_log w2 ++ saved_log args ++ [completed_line]) s').
Proof.
  intros Hload Hsize Hstage Hsave.
  assert (Hstream : stream_to_disk fds args w2 =
    (Ok tt, mkWorld _ (w_log w2 ++ saved_log args) s')).
  { unfold stream_to_disk, logger_info, logger_warning.
    rewrite M_bind_log.
    unfold try_except_FileExistsError, call_save_manual_shards.
    unfold mbind at 1, M_bind at 1. simpl w_store. rewrite Hsave.
    unfold log_at, logged. simpl. rewrite <- app_assoc. reflexivity. }
  split; [exact Hstream | split; [reflexivity|]].
  rewrite (main_until_persistence _ _ _ _ _ _ _ Hload Hsize Hstage).
  unfold mbind at 1, M_bind at 1. rewrite Hstream.
  unfold logger_info, log_at. simpl. rewrite <- app_assoc. reflexivity.
Qed.

(** X10: only [FileExistsError] is handled.  Any other exception of the
    writer is the exception of the persistence step and of the script,
    which then logs neither a warning nor its last line. *)
Theorem other_writer_errors_propagate `{Collaborators}
  (args : FilteringArguments) (w0 w1 w2 : world) (ds0 ds1 fds : Dataset)
  (s' : storage) (e : exn) :
  load_dataset (dataset_name args) (split args) (subset args)
    (num_workers args) = Ok ds0 ->
  add_size_column ds0 (logged w0 (loading_log args)) = (Ok ds1, w1) ->
  filter_dataset_with_stats ds1 args w1 = (Ok fds, w2) ->
  save_manual_shards fds (hub_username args) (remote_repo args)
    (out_path args) (subset args) (w_store w2) = (Raise e, s') ->
  e ≠ FileExistsError ->
  stream_to_disk fds args w2 =
    (Raise e,
     mkWorld _
       (w_log w2 ++ [mkLog INFO "=== Streaming filtered dataset to disk ===" []])
       s') ∧
  main args w0 = stream_to_disk fds args w2.
Proof.
  intros Hload Hsize Hstage Hsave Hne.
  assert (Hstream : stream_to_disk fds args w2 =
    (Raise e,
     mkWorld _
       (w_log w2 ++ [mkLog INFO "=== Streaming filtered dataset to disk ===" []])
       s')).
  { unfold stream_to_disk, logger_info, logger_warning.
    rewrite M_bind_log.
    unfold try_except_FileExistsError, call_save_manual_shards.
    unfold mbind at 1, M_bind at 1. simpl w_store. rewrite Hsave.
    destruct e; try reflexivity. destruct (Hne eq_refl). }
  split; [exact Hstream|].
  rewrite (main_until_persistence _ _ _ _ _ _ _ Hload Hsize Hstage).
  unfold mbind at 1, M_bind at 1. rewrite Hstream. reflexivity.
Qed.

(** ** The size column and the byte total *)

Lemma py_sum_lengths (contents : list pystr) (acc : Z) :
  foldl (fun acc x => a ← acc; py_add a x) (Ok (VInt acc))
    ((fun s : pystr => VInt (Z.of_nat (length s))) <$> contents) =
  Ok (VInt (acc + Z.of_nat (sum_list (length <$> contents)))).
Proof.
  revert acc. induction contents as [|s l IH]; intros acc.
  - simpl. rewrite Z.add_0_r. reflexivity.
  - change (foldl (fun acc x => a ← acc; py_add a x) (Ok (VInt acc))
              ((fun s : pystr => VInt (Z.of_nat (length s))) <$> s :: l))
      with (foldl (fun acc x => a ← acc; py_add a x)
              (Ok (VInt (acc + Z.of_nat (length s))))
              ((fun s : pystr => VInt (Z.of_nat (length s))) <$> l)).
    rewrite IH. do 2 f_equal.
    change (sum_list (length <$> s :: l))
      with (length s + sum_list (length <$> l))%nat.
    lia.
Qed.

Lemma sizes_of_sized (l : list pydict) (contents : list pystr) :
  length l = length contents ->
  sizes_of (zip_with sized l contents) =
  (fun s : pystr => VInt (Z.of_nat (length s))) <$> contents.
Proof.
  revert contents. induction l as [|r l IH]; intros [|s ss] Hlen;
    try discriminate Hlen; [reflexivity|].
  simpl. unfold sized at 1. rewrite lookup_insert_eq. simpl.
  f_equal. apply IH. simpl in Hlen. lia.
Qed.

(** X11: on a corpus with records and without a [size] column, where
    every content is a string, the size column is added and the number
    of gigabytes the stage starts from is the total number of
    characters of the contents, divided by [1e9]. *)
Theorem derived_sizes_are_summed `{Collaborators} (ds : Dataset)
  (w : world) (contents : list pystr) :
  "size" ∉ column_names ds ->
  rows ds ≠ [] ->
  Forall2 (fun example s => example !! "content" = Some (VStr s))
    (rows ds) contents ->
  ∃ ds',
    add_size_column ds w =
      (Ok ds', logged w [mkLog INFO "Adding text size column" []]) ∧
    "size" ∈ column_names ds' ∧
    py_sum (sizes_of (rows ds')) =
      Ok (VInt (Z.of_nat (sum_list (length <$> contents)))) ∧
    size_gb ds' =
      py_truediv (VInt (Z.of_nat (sum_list (length <$> contents))))
        (VFloat f_1e9).
Proof.
  intros Hc Hne Hcontents.
  unfold add_size_column. rewrite decide_False by exact Hc.
  unfold logger_info. rewrite M_bind_log.
  unfold lift, ds_map. rewrite (map_rows_size_of_content _ _ Hcontents).
  simpl.
  rewrite write_batch_sized by (apply (Forall2_length _ _ _ Hcontents)).
  simpl. eexists. split; [reflexivity|].
  assert (Hsum : py_sum (sizes_of (zip_with sized (rows ds) contents)) =
    Ok (VInt (Z.of_nat (sum_list (length <$> contents))))).
  { rewrite sizes_of_sized by (apply (Forall2_length _ _ _ Hcontents)).
    unfold py_sum. rewrite py_sum_lengths. reflexivity. }
  assert (Hin : "size" ∈ column_names ds ∪
                  ⋃ (dom <$> zip_with sized (rows ds) contents)).
  { destruct Hcontents as [|r s l ss _ _]; [destruct (Hne eq_refl)|].
    apply elem_of_union_r. simpl. apply elem_of_union_l.
    apply elem_of_dom. unfold sized. rewrite lookup_insert_eq. eauto. }
  split; [exact Hin|]. split; [exact Hsum|].
  rewrite size_gb_column by exact Hin. simpl rows. rewrite Hsum. reflexivity.
Qed.

(** X12: the size column needs a text in every record.  At the first
    record whose content is missing the pass raises [KeyError], and at
    the first whose content is not a string, [None] for one, it raises
    [TypeError]; no corpus is returned. *)
Theorem size_column_needs_text `{Collaborators} (ds : Dataset) (w : world)
  (before after : list pydict) (contents : list pystr) (example : pydict) :
  "size" ∉ column_names ds ->
  rows ds = (before ++ example :: after)%list ->
  Forall2 (fun r s => r !! "content" = Some (VStr s)) before contents ->
  (example !! "content" = None ->
   add_size_column ds w =
     (Raise (KeyError "content"),
      logged w [mkLog INFO "Adding text size column" []])) ∧
  (∀ v, example !! "content" = Some v -> (∀ s, v ≠ VStr s) ->
   add_size_column ds w =
     (Raise TypeError, logged w [mkLog INFO "Adding text size column" []])).
Proof.
  intros Hc Hrows Hbefore.
  pose proof (map_rows_size_of_content _ _ Hbefore) as Hb.
  pose proof (write_batch_sized _ _ (Forall2_length _ _ _ Hbefore)) as Hw.
  unfold add_size_column. rewrite decide_False by exact Hc.
  unfold logger_info. rewrite M_bind_log. unfold lift.
  split.
  - intros Hnone.
    rewrite (ds_map_raise ["size"] _ ds before after _ example
               (KeyError "content") Hrows Hb).
    + rewrite Hw. reflexivity.
    + unfold size_of_content, getitem. rewrite Hnone. reflexivity.
  - intros v Hv Hnot.
    rewrite (ds_map_raise ["size"] _ ds before after _ example
               TypeError Hrows Hb).
    + rewrite Hw. reflexivity.
    + unfold size_of_content, getitem. rewrite Hv. simpl.
      destruct v as [| | |s]; try reflexivity. destruct (Hnot s eq_refl).
Qed.

(** ** What the stage returns *)

Lemma filter_sublist {A : Type} (p : A -> bool) (l : list A) :
  List.filter p l `sublist_of` l.
Proof.
  induction l as [|x l IH]; simpl; [constructor|].
  destruct (p x); [apply sublist_skip | apply sublist_cons]; exact IH.
Qed.

Lemma filter_all {A : Type} (p : A -> bool) (l : list A) :
  length (List.filter p l) = length l -> List.filter p l = l.
Proof.
  induction l as [|x l IH]; simpl; [reflexivity|].
  destruct (p x); simpl; intros Hlen.
  - f_equal. apply IH. lia.
  - pose proof (sublist_length _ _ (filter_sublist p l)). lia.
Qed.


(** ** A corpus of which nothing is rejected *)

Lemma SFsub_diag (s : bool) (m : positive) (e : Z) :
  SFsub prec emax (S754_finite s m e) (S754_finite s m e) = S754_zero false.
Proof. unfold SFsub. rewrite Z.sub_diag. reflexivity. Qed.

Lemma pct_removed_same_count (n : Z) :
  0 < n -> pct_removed (VInt n) (VInt n) = Ok (VFloat (S754_zero false)).
Proof.
  intros Hn. unfold pct_removed. simpl. rewrite Z.sub_diag. simpl.
  destruct n as [|p|p]; try lia. reflexivity.
Qed.

Lemma pct_removed_same_float (s : bool) (m : positive) (e : Z) :
  pct_removed (VFloat (S754_finite s m e)) (VFloat (S754_finite s m e)) =
  Ok (VFloat (S754_zero s)).
Proof.
  unfold pct_removed.
  change (py_sub (VFloat (S754_finite s m e)) (VFloat (S754_finite s m e)))
    with (Ok (VFloat (SFsub prec emax (S754_finite s m e) (S754_finite s m e)))
            : result value).
  rewrite SFsub_diag. destruct s; reflexivity.
Qed.

Lemma sizes_of_outputs `{Collaborators} (args : FilteringArguments)
  (l outs : list pydict) :
  Forall2 (fun example out => combined_filter_map example args = Ok out) l outs ->
  sizes_of outs = sizes_of l.
Proof.
  induction 1 as [|r o l l' Ho _ IH]; [reflexivity|].
  change (sizes_of (o :: l'))
    with (default VNone (o !! "size") :: sizes_of l').
  rewrite (combined_filter_map_size _ _ _ Ho), IH. reflexivity.
Qed.

(** X14: when the stage returns as many records as it received and the
    number of gigabytes is a finite float, nothing was removed and both
    percentages it logs are zero: the corpus after the filter has the
    count and the gigabytes of the corpus before. *)
Theorem nothing_rejected_is_zero_percent `{Collaborators} (ds fds : Dataset)
  (args : FilteringArguments) (w w' : world)
  (s : bool) (m : positive) (e : Z) :
  filter_dataset_with_stats ds args w = (Ok fds, w') ->
  ds_len fds = ds_len ds ->
  size_gb ds = Ok (VFloat (S754_finite s m e)) ->
  Forall2 (fun example out => combined_filter_map example args = Ok out)
    (rows ds) (rows fds) ∧
  w' = logged w
         (parameters_log args ++
          statistics_log (VInt (ds_len ds)) (VFloat (S754_finite s m e))
            (VInt (ds_len ds)) (VFloat (S754_finite s m e))
            (VFloat (S754_zero false)) (VFloat (S754_zero s))).
Proof.
  intros Hrun Hlen Hgb.
  apply filter_dataset_with_stats_Ok in Hrun
    as (outs & igb & fgb & rp & sp & Higb & Houts & _ & -> & Hfgb & Hrp & Hsp & ->).
  rewrite Hgb in Higb. injection Higb as <-.
  pose proof (filter_written_accepted _ _ _ Houts) as Hkept.
  assert (Hall : List.filter accepted_flag outs = outs).
  { apply filter_all. unfold ds_len in Hlen. simpl in Hlen.
    rewrite Hkept in Hlen.
    pose proof (Forall2_length _ _ _ Houts). lia. }
  rewrite Hall in Hkept. simpl rows in *. rewrite Hkept in *.
  split; [exact Houts|].
  assert (Hfgb' : fgb = VFloat (S754_finite s m e)).
  { apply size_gb_Ok in Hgb as (Hc & total & Hsum & Hdiv).
    rewrite size_gb_column in Hfgb by (simpl; apply elem_of_union_l, Hc).
    simpl rows in Hfgb.
    rewrite (sizes_of_outputs _ _ _ Houts), Hsum in Hfgb. simpl in Hfgb.
    congruence. }
  subst fgb. rewrite Hlen in *.
  rewrite pct_removed_same_float in Hsp. injection Hsp as <-.
  destruct (Z.eq_dec (ds_len ds) 0) as [Hz | Hz].
  { exfalso. rewrite Hz in Hrp. discriminate Hrp. }
  rewrite pct_removed_same_count in Hrp by (unfold ds_len in *; lia).
  injection Hrp as <-. reflexivity.
Qed.

(** ** A batch that the writer cannot write *)





(** ** A first record that is rejected *)





(* ===================================================================== *)
(** * More runs on concrete records *)
(* ===================================================================== *)

Lemma record_fields_are_kept_witness :
  output strict long_line args !! "size" = long_line !! "size" ∧
  output strict long_line args !! "max_line_length" = Some (VInt 1500).
Proof.
  split.
  - apply (@record_fields_are_kept strict long_line args).
    + by_evaluation.
    + by_decision.
  - rewrite (proj1 (@record_fields_are_kept strict long_line args
                      (output strict long_line args) ltac:(by_evaluation))
               "max_line_length" ltac:(by_decision)).
    by_evaluation.
Defined.

Lemma evaluation_is_idempotent_witness :
  @combined_filter_map strict (output strict long_line args) args =
  Ok (output strict long_line args).
Proof.
  apply (@evaluation_is_idempotent strict long_line args). by_evaluation.
Defined.

Lemma accepted_iff_every_test_fails_witness :
  output strict good args !! "accepted" = Some (VInt 1) ↔
  max_line_test good args = Ok false ∧
  avg_line_test good args = Ok false ∧
  alphanum_test good args = Ok false ∧
  stars_test good args = Ok false ∧
  ∃ r, output strict good args !! "nl_ratio" = Some r ∧
       comments_test r args = Ok false.
Proof.
  apply (@accepted_iff_every_test_fails strict good args). by_evaluation.
Defined.

Lemma nan_is_never_rejected_witness :
  (output unmeasuring unmeasured args !! "accepted" = Some (VInt 1) ↔
   max_line_test unmeasured args = Ok false ∧
   stars_test unmeasured args = Ok false) ∧
  output unmeasuring unmeasured args !! "comments_rejected" =
  unmeasured !! "comments_rejected".
Proof.
  apply (@nan_is_never_rejected unmeasuring unmeasured args).
  - by_decision.
  - by_decision.
  - by_decision.
  - by_decision.
  - by_evaluation.
  - by_evaluation.
  - by_evaluation.
  - by_evaluation.
Defined.

Lemma basic_chain_stops_at_first_match_witness :
  @combined_filter_stats strict bare args =
  @combined_filter_stats strict long_line args.
Proof.
  apply (@basic_chain_stops_at_first_match strict long_line args).
  - by_evaluation.
  - intros k H1 H2. unfold bare.
    rewrite !lookup_delete_ne by congruence. reflexivity.
Defined.

Lemma comments_gate_errors_witness :
  @combined_filter_map strict no_content args = Raise (KeyError "content") ∧
  @combined_filter_map strict null_lang args = Raise AttributeError.
Proof.
  split.
  - apply (@comments_gate_errors strict no_content args
             (state_of (basic_filters no_content args (true, ∅)))
             (state_of (stars_filter no_content args
                          (state_of (basic_filters no_content args (true, ∅)))))).
    + by_evaluation.
    + by_evaluation.
    + by_evaluation.
  - apply (@comments_gate_errors strict null_lang args
             (state_of (basic_filters null_lang args (true, ∅)))
             (state_of (stars_filter null_lang args
                          (state_of (basic_filters null_lang args (true, ∅)))))
             ltac:(by_evaluation) ltac:(by_evaluation)) with (v := VNone).
    + by_decision.
    + by_evaluation.
    + intros s. discriminate.
Defined.

Lemma stage_stops_at_first_failure_witness :
  @filter_dataset_with_stats strict late_empty args (@fresh strict no_shelf) =
  (Raise ZeroDivisionError,
   logged (@fresh strict no_shelf) (parameters_log args)).
Proof.
  apply (@stage_stops_at_first_failure strict late_empty args
           (@fresh strict no_shelf) [good; popular] [long_line]
           [output strict good args; output strict popular args]
           empty ZeroDivisionError (value_of (size_gb late_empty))).
  - by_evaluation.
  - reflexivity.
  - repeat constructor; by_evaluation.
  - intros o1 o2 H1 H2.
    rewrite !elem_of_cons, elem_of_nil in H1, H2.
    destruct H1 as [-> | [-> | []]], H2 as [-> | [-> | []]]; by_evaluation.
  - by_evaluation.
Defined.

Lemma failure_before_persistence_witness :
  (@main offline args (@fresh offline full_shelf)).1 =
    Raise (OtherError "ConnectionError") ∧
  w_store (@main offline args (@fresh offline full_shelf)).2 = full_shelf.
Proof.
  apply (@failure_before_persistence offline args (@fresh offline full_shelf)).
  reflexivity.
Defined.

Lemma saved_corpus_is_reported_witness :
  last (w_log (@main strict args (@fresh strict no_shelf)).2) =
    Some completed_line ∧
  w_store (@main strict args (@fresh strict no_shelf)).2 =
    [(out_path args, subset args)] ∧
  (@main strict args (@fresh strict no_shelf)).1 = Ok tt.
Proof.
  destruct (@saved_corpus_is_reported strict args (@fresh strict no_shelf)
    (logged (@fresh strict no_shelf) (loading_log args))
    (@filter_dataset_with_stats strict corpus args
       (logged (@fresh strict no_shelf) (loading_log args))).2
    corpus corpus
    (kept_of (@filter_dataset_with_stats strict corpus args
                (logged (@fresh strict no_shelf) (loading_log args))))
    [(out_path args, subset args)])
    as (_ & _ & Hmain).
  - reflexivity.
  - by_evaluation.
  - by_evaluation.
  - by_evaluation.
  - rewrite Hmain. simpl. repeat split.
Defined.

Lemma other_writer_errors_propagate_witness :
  (@main broken args (@fresh broken no_shelf)).1 = Raise (OtherError "OSError").
Proof.
  destruct (@other_writer_errors_propagate broken args (@fresh broken no_shelf)
    (logged (@fresh broken no_shelf) (loading_log args))
    (@filter_dataset_with_stats broken corpus args
       (logged (@fresh broken no_shelf) (loading_log args))).2
    corpus corpus
    (kept_of (@filter_dataset_with_stats broken corpus args
                (logged (@fresh broken no_shelf) (loading_log args))))
    no_shelf (OtherError "OSError"))
    as (Hstream & Hmain).
  - reflexivity.
  - by_evaluation.
  - by_evaluation.
  - by_evaluation.
  - discriminate.
  - rewrite Hmain, Hstream. reflexivity.
Defined.

Lemma derived_sizes_are_summed_witness :
  ∃ ds',
    @add_size_column strict unsized_pair (@fresh strict no_shelf) =
      (Ok ds', logged (@fresh strict no_shelf)
                 [mkLog INFO "Adding text size column" []]) ∧
    "size" ∈ column_names ds' ∧
    py_sum (sizes_of (rows ds')) = Ok (VInt 64) ∧
    size_gb ds' = py_truediv (VInt 64) (VFloat f_1e9).
Proof.
  apply (@derived_sizes_are_summed strict unsized_pair (@fresh strict no_shelf)
    [str_of "#a";
     str_of "#xxxxxxxxxxxxxxxxxxxxxxxxxxxxxxxxxxxxxxxxxxxxxxxxxxxxxxxxxxxxx"]).
  - intros Hin. apply (bool_decide_pack _) in Hin. vm_compute in Hin. exact Hin.
  - discriminate.
  - repeat constructor; by_evaluation.
Defined.

Lemma size_column_needs_text_witness :
  @add_size_column strict untexted (@fresh strict no_shelf) =
  (Raise TypeError,
   logged (@fresh strict no_shelf) [mkLog INFO "Adding text size column" []]).
Proof.
  apply (@size_column_needs_text strict untexted (@fresh strict no_shelf)
           [accented] [] [[233%N]] (<["content" := VNone]> accented))
    with (v := VNone).
  - intros Hin. apply (bool_decide_pack _) in Hin. vm_compute in Hin. exact Hin.
  - reflexivity.
  - repeat constructor.
  - by_evaluation.
  - intros s. discriminate.
Defined.


Lemma nothing_rejected_is_zero_percent_witness :
  last (w_log (@filter_dataset_with_stats strict all_good args
                 (@fresh strict no_shelf)).2) =
  Some (mkLog INFO "Percentage of volume removed: {:.2f}%"
          [VFloat (S754_zero false)]).
Proof.
  destruct (@nothing_rejected_is_zero_percent strict all_good
    (kept_of (@filter_dataset_with_stats strict all_good args
                (@fresh strict no_shelf)))
    args (@fresh strict no_shelf)
    (@filter_dataset_with_stats strict all_good args (@fresh strict no_shelf)).2
    false 4835703278458517 (-80)) as (_ & Hlog).
  - by_evaluation.
  - by_evaluation.
  - by_evaluation.
  - rewrite Hlog. reflexivity.
Defined.



